(** * The monitoring edge function: a shallow embedding

  The function serves [/monitor] (one monitoring pass over the
  targets), [/schedule] (creation of targets) and [/status].  Its
  functions are embedded one by one, under their names.

  - Strings are JavaScript strings whose code units are below 256: a
    code unit is an [ascii], and [toLowerCase], [\s] and UTF-8 are
    those of Latin-1.
  - Numbers are IEEE-754 binary64 ([SpecFloat]) where the source
    divides and compares with [0.7]; times and intervals in
    milliseconds are integers, on which the arithmetic of the source
    is exact.
  - [crypto.subtle.digest('SHA-256', ...)] is SHA-256 itself.
  - The clock, the console and the two arrays of a request are a
    state passed along; a computation returns or throws.
  - The source checks a page with [metadata] and [markdown] bound to
    constants, where production code is to scrape the page: the check
    takes the scraping as a parameter, and the constants are one
    instance of it. *)

From Stdlib Require Import ZArith Lia Bool List Ascii String.
From Stdlib Require Import Floats.SpecFloat.
From Stdlib Require Import Numbers.DecimalString.
From Stdlib Require Import QArith.
Import ListNotations.

Local Open Scope string_scope.
Local Open Scope list_scope.
Local Open Scope nat_scope.

(** ** Strings: the methods of [String.prototype] the function calls *)

Module JsString.

Definition code (c : ascii) : nat := nat_of_ascii c.

(** [\s] of a regular expression, restricted to code units below 256:
    TAB, LF, VT, FF, CR, SPACE and NO-BREAK SPACE. *)
Definition isWhiteSpace (c : ascii) : bool :=
  let n := code c in
  ((9 <=? n) && (n <=? 13)) || (n =? 32) || (n =? 160).

(** Case mapping of one code unit: A-Z, and the upper-case letters of
    Latin-1 (U+00C0 to U+00DE without the multiplication sign). *)
Definition lowerChar (c : ascii) : ascii :=
  let n := code c in
  if ((65 <=? n) && (n <=? 90))
     || ((192 <=? n) && (n <=? 222) && negb (n =? 215))
  then ascii_of_nat (n + 32)
  else c.

Fixpoint toLowerCase (s : string) : string :=
  match s with
  | EmptyString => EmptyString
  | String c rest => String (lowerChar c) (toLowerCase rest)
  end.

(** [s.replace(/\s+/g, ' ')]: every maximal run of white space becomes
    one SPACE, written when the last character of the run is read. *)
Fixpoint collapseWhitespace (s : string) : string :=
  match s with
  | EmptyString => EmptyString
  | String c rest =>
      if isWhiteSpace c then
        match rest with
        | EmptyString => String " " EmptyString
        | String c' _ =>
            if isWhiteSpace c' then collapseWhitespace rest
            else String " " (collapseWhitespace rest)
        end
      else String c (collapseWhitespace rest)
  end.

(** [s.split(sep)] for a one-character separator: the pieces between
    the occurrences of [sep], empty pieces kept; never an empty list. *)
Fixpoint split (sep : ascii) (s : string) : list string :=
  match s with
  | EmptyString => [EmptyString]
  | String c rest =>
      if Ascii.eqb c sep then EmptyString :: split sep rest
      else match split sep rest with
           | w :: ws => String c w :: ws
           | [] => [String c EmptyString]
           end
  end.

(** [s.includes(w)]: [w] starts at some position of [s]. *)
Fixpoint includes (s w : string) : bool :=
  String.prefix w s
  || match s with
     | EmptyString => false
     | String _ rest => includes rest w
     end.

(** [s.padStart(width, fill)] for a one-character [fill]. *)
Definition padStart (width : nat) (fill : ascii) (s : string) : string :=
  String.string_of_list_ascii (repeat fill (width - String.length s)) ++ s.

Definition join (pieces : list string) : string := String.concat EmptyString pieces.

Definition digitChar (d : Z) : ascii :=
  nth (Z.to_nat d) (list_ascii_of_string "0123456789abcdef") "0"%char.

(** [n.toString(16)] for an integer [n >= 0]: no leading zero. *)
Fixpoint toHexFrom (fuel : nat) (n : Z) (acc : string) : string :=
  let acc' := String (digitChar (n mod 16)) acc in
  match fuel with
  | O => acc'
  | S fuel' => if (n / 16 =? 0)%Z then acc' else toHexFrom fuel' (n / 16) acc'
  end.

Definition toString16 (n : Z) : string :=
  toHexFrom (Z.to_nat (Z.log2 n)) n EmptyString.

(** Template-literal rendering of an integer-valued Number. *)
Definition toDecimal (z : Z) : string := NilZero.string_of_int (Z.to_int z).

(** The decimal digits of [n] on exactly [width] characters. *)
Fixpoint zeroPadded (width : nat) (n : Z) : string :=
  match width with
  | O => EmptyString
  | S w => zeroPadded w (n / 10) ++ String (digitChar (n mod 10)) EmptyString
  end.

(** [JSON.stringify] of a string: [QuoteJSONString] of ECMA-262 on
    code units below 256. *)
Definition quoteChar : ascii := "034"%char.
Definition backslash : ascii := "092"%char.

Definition escapeChar (c : ascii) : string :=
  let n := code c in
  if n =? 34 then String backslash (String quoteChar EmptyString)
  else if n =? 92 then String backslash (String backslash EmptyString)
  else if n =? 8 then String backslash "b"
  else if n =? 12 then String backslash "f"
  else if n =? 10 then String backslash "n"
  else if n =? 13 then String backslash "r"
  else if n =? 9 then String backslash "t"
  else if n <? 32 then String backslash ("u00" ++ padStart 2 "0" (toString16 (Z.of_nat n)))
  else String c EmptyString.

Fixpoint escape (s : string) : string :=
  match s with
  | EmptyString => EmptyString
  | String c rest => escapeChar c ++ escape rest
  end.

Definition quoteJSONString (s : string) : string :=
  String quoteChar (escape s ++ String quoteChar EmptyString).

(** Where a text begins and ends: used to say that it is trimmed. *)
Definition startsWithSpace (s : string) : bool :=
  match s with
  | EmptyString => false
  | String c _ => isWhiteSpace c
  end.

Fixpoint endsWithSpace (s : string) : bool :=
  match s with
  | EmptyString => false
  | String c EmptyString => isWhiteSpace c
  | String _ rest => endsWithSpace rest
  end.

Definition trimmed (s : string) : bool :=
  negb (startsWithSpace s) && negb (endsWithSpace s).

Definition isEmpty (s : string) : bool := String.eqb s EmptyString.

Fixpoint allWhiteSpace (s : string) : bool :=
  match s with
  | EmptyString => true
  | String c rest => isWhiteSpace c && allWhiteSpace rest
  end.

(** [new TextEncoder().encode(s)]: UTF-8, two bytes from U+0080 on. *)
Definition utf8Char (c : ascii) : list Z :=
  let n := Z.of_nat (code c) in
  if (n <? 128)%Z then [n] else [(192 + n / 64)%Z; (128 + n mod 64)%Z].

Definition utf8 (s : string) : list Z :=
  flat_map utf8Char (list_ascii_of_string s).

End JsString.

(** ** Numbers: binary64 division and comparison *)

Module Binary64.

Definition prec : Z := 53.
Definition emax : Z := 1024.

Definition float := spec_float.

(** The Number holding an integer (exact below 2^53, rounded above). *)
Definition ofZ (z : Z) : float := binary_normalize prec emax z 0 false.
Definition ofNat (n : nat) : float := ofZ (Z.of_nat n).

Definition div (x y : float) : float := SFdiv prec emax x y.

(** [x >= y] of JavaScript: false as soon as one side is NaN. *)
Definition geb (x y : float) : bool := SFleb y x.

(** The literal [0.7]: the binary64 nearest to 7/10. *)
Definition lit_0_7 : float := S754_finite false 6305039478318694 (-53).

(** The steps of a correctly rounded division, named to follow
    [SFdiv] through its rounding: the mantissa of [0.7], whether a
    location is inexact and whether it rounds an odd mantissa up, the
    location after one more bit is shifted out, and the final
    renormalisation of a mantissa that rounding took to 2^53. *)
Definition mantissa_0_7 : Z := 6305039478318694.

Definition atLeast_0_7 (x : float) : bool := geb x lit_0_7.

Definition inexact (l : location) : bool :=
  match l with
  | loc_Exact => false
  | _ => true
  end.

Definition roundsUp (l : location) : bool :=
  match l with
  | loc_Exact | loc_Inexact Lt => false
  | _ => true
  end.

Definition shiftedLocation (q : Z) (l : location) : location :=
  loc_of_shr_record {| shr_m := (q / 2)%Z; shr_r := Z.odd q; shr_s := inexact l |}.

Definition renormalized (q : Z) (e : Z) : float :=
  if (q <? 2 ^ 53)%Z then S754_finite false (Z.to_pos q) e
  else S754_finite false (Z.to_pos (2 ^ 52)) (e + 1).

End Binary64.

(** ** Dates: [Date.prototype.toISOString] *)

Module JsDate.
Import JsString.
Local Open Scope Z_scope.

Definition msPerDay : Z := 86400000.

(** Year, month and day of the proleptic Gregorian calendar from the
    number of days since 1970-01-01. *)
Definition civilFromDays (days : Z) : Z * Z * Z :=
  let z := days + 719468 in
  let era := z / 146097 in
  let doe := z - era * 146097 in
  let yoe := (doe - doe / 1460 + doe / 36524 - doe / 146096) / 365 in
  let doy := doe - (365 * yoe + yoe / 4 - yoe / 100) in
  let mp := (5 * doy + 2) / 153 in
  let d := doy - (153 * mp + 2) / 5 + 1 in
  let m := if mp <? 10 then mp + 3 else mp - 9 in
  let y := yoe + era * 400 + (if m <=? 2 then 1 else 0) in
  (y, m, d).

Definition yearString (y : Z) : string :=
  if (0 <=? y) && (y <=? 9999) then zeroPadded 4 y
  else ((if (y <? 0)%Z then "-" else "+") ++ zeroPadded 6 (Z.abs y))%string.

(** [new Date(ms).toISOString()], for a time value in the range of
    Date (beyond it the method throws a RangeError). *)
Definition toISOString (ms : Z) : string :=
  let '(y, m, d) := civilFromDays (ms / msPerDay) in
  let t := ms mod msPerDay in
  (yearString y ++ "-" ++ zeroPadded 2 m ++ "-" ++ zeroPadded 2 d ++ "T"
   ++ zeroPadded 2 (t / 3600000) ++ ":" ++ zeroPadded 2 (t / 60000 mod 60) ++ ":"
   ++ zeroPadded 2 (t / 1000 mod 60) ++ "." ++ zeroPadded 3 (t mod 1000) ++ "Z")%string.

End JsDate.

(** ** SHA-256 ([crypto.subtle.digest('SHA-256', data)]), FIPS 180-4 *)

Module Sha256.
Local Open Scope Z_scope.

Definition word := Z.
Definition byte := Z.

Definition wrap (x : Z) : word := x mod 2 ^ 32.
Definition add32 (x y : word) : word := wrap (x + y).
Definition not32 (x : word) : word := Z.lxor x 4294967295.
Definition rotr (n : Z) (x : word) : word :=
  wrap (Z.lor (Z.shiftr x n) (Z.shiftl x (32 - n))).

Definition Ch (x y z : word) : word :=
  Z.lxor (Z.land x y) (Z.land (not32 x) z).
Definition Maj (x y z : word) : word :=
  Z.lxor (Z.lxor (Z.land x y) (Z.land x z)) (Z.land y z).
Definition Sigma0 (x : word) : word :=
  Z.lxor (Z.lxor (rotr 2 x) (rotr 13 x)) (rotr 22 x).
Definition Sigma1 (x : word) : word :=
  Z.lxor (Z.lxor (rotr 6 x) (rotr 11 x)) (rotr 25 x).
Definition sigma0 (x : word) : word :=
  Z.lxor (Z.lxor (rotr 7 x) (rotr 18 x)) (Z.shiftr x 3).
Definition sigma1 (x : word) : word :=
  Z.lxor (Z.lxor (rotr 17 x) (rotr 19 x)) (Z.shiftr x 10).

Definition K : list word :=
  [1116352408; 1899447441; 3049323471; 3921009573; 961987163; 1508970993;
   2453635748; 2870763221; 3624381080; 310598401; 607225278; 1426881987;
   1925078388; 2162078206; 2614888103; 3248222580; 3835390401; 4022224774;
   264347078; 604807628; 770255983; 1249150122; 1555081692; 1996064986;
   2554220882; 2821834349; 2952996808; 3210313671; 3336571891; 3584528711;
   113926993; 338241895; 666307205; 773529912; 1294757372; 1396182291;
   1695183700; 1986661051; 2177026350; 2456956037; 2730485921; 2820302411;
   3259730800; 3345764771; 3516065817; 3600352804; 4094571909; 275423344;
   430227734; 506948616; 659060556; 883997877; 958139571; 1322822218;
   1537002063; 1747873779; 1955562222; 2024104815; 2227730452; 2361852424;
   2428436474; 2756734187; 3204031479; 3329325298].

Record state := {
  h0 : word; h1 : word; h2 : word; h3 : word;
  h4 : word; h5 : word; h6 : word; h7 : word
}.

Definition initial : state :=
  {| h0 := 1779033703; h1 := 3144134277; h2 := 1013904242; h3 := 2773480762;
     h4 := 1359893119; h5 := 2600822924; h6 := 528734635; h7 := 1541459225 |}.

(** Padding: the bit 1, zeros up to 56 modulo 64, the bit length on 64 bits. *)
Definition bigEndian (width : nat) (x : Z) : list byte :=
  map (fun i => (x / 256 ^ Z.of_nat i) mod 256) (rev (seq 0 width)).

Definition pad (msg : list byte) : list byte :=
  let len := Z.of_nat (List.length msg) in
  let zeros := Z.to_nat ((55 - len) mod 64) in
  msg ++ [128] ++ repeat 0 zeros ++ bigEndian 8 (8 * len).

Definition wordOf (b3 b2 b1 b0 : byte) : word :=
  ((b3 * 256 + b2) * 256 + b1) * 256 + b0.

Fixpoint wordsOf (bytes : list byte) : list word :=
  match bytes with
  | b3 :: b2 :: b1 :: b0 :: rest => wordOf b3 b2 b1 b0 :: wordsOf rest
  | _ => []
  end.

Fixpoint blocksOf (fuel : nat) (words : list word) : list (list word) :=
  match fuel, words with
  | S fuel', _ :: _ => firstn 16 words :: blocksOf fuel' (skipn 16 words)
  | _, _ => []
  end.

(** The message schedule: 16 words of the block, then 48 derived ones. *)
Definition at_ (w : list word) (i : nat) : word := nth i w 0.

Fixpoint extend (n : nat) (w : list word) : list word :=
  match n with
  | O => w
  | S n' =>
      let t := List.length w in
      let next :=
        add32 (add32 (add32 (sigma1 (at_ w (t - 2))) (at_ w (t - 7)))
                     (sigma0 (at_ w (t - 15))))
              (at_ w (t - 16)) in
      extend n' (w ++ [next])
  end.

Definition round (s : state) (kw : word * word) : state :=
  let '(k, w) := kw in
  let t1 :=
    add32 (add32 (add32 (add32 (h7 s) (Sigma1 (h4 s))) (Ch (h4 s) (h5 s) (h6 s))) k) w in
  let t2 := add32 (Sigma0 (h0 s)) (Maj (h0 s) (h1 s) (h2 s)) in
  {| h0 := add32 t1 t2; h1 := h0 s; h2 := h1 s; h3 := h2 s;
     h4 := add32 (h3 s) t1; h5 := h4 s; h6 := h5 s; h7 := h6 s |}.

Definition compress (s : state) (block : list word) : state :=
  let r := fold_left round (combine K (extend 48 block)) s in
  {| h0 := add32 (h0 s) (h0 r); h1 := add32 (h1 s) (h1 r);
     h2 := add32 (h2 s) (h2 r); h3 := add32 (h3 s) (h3 r);
     h4 := add32 (h4 s) (h4 r); h5 := add32 (h5 s) (h5 r);
     h6 := add32 (h6 s) (h6 r); h7 := add32 (h7 s) (h7 r) |}.

Definition digest (msg : list byte) : list byte :=
  let words := wordsOf (pad msg) in
  let s := fold_left compress (blocksOf (List.length words) words) initial in
  flat_map (bigEndian 4) [h0 s; h1 s; h2 s; h3 s; h4 s; h5 s; h6 s; h7 s].

End Sha256.

(** ** JSON values: request bodies and the objects the function builds *)

Module Json.

#[local] Unset Elimination Schemes.
Inductive JSON :=
| JNull
| JBool (b : bool)
| JNum (x : Binary64.float)
| JStr (s : string)
| JArr (items : list JSON)
| JObj (fields : list (string * JSON)).
#[local] Set Elimination Schemes.

(** Property lookup in an object, which holds one entry per key;
    [None] is [undefined]. *)
Fixpoint lookup (key : string) (fields : list (string * JSON)) : option JSON :=
  match fields with
  | [] => None
  | (k, v) :: rest => if String.eqb k key then Some v else lookup key rest
  end.

(** [value.key] on a value that is neither [null] nor [undefined]:
    only objects built from JSON carry the keys read here. *)
Definition getField (value : JSON) (key : string) : option JSON :=
  match value with
  | JObj fields => lookup key fields
  | _ => None
  end.

Definition keys (value : JSON) : list string :=
  match value with
  | JObj fields => map fst fields
  | _ => []
  end.

(** ToBoolean, [undefined] included. *)
Definition truthy (v : option JSON) : bool :=
  match v with
  | None | Some JNull => false
  | Some (JBool b) => b
  | Some (JNum (S754_zero _)) | Some (JNum S754_nan) => false
  | Some (JNum _) => true
  | Some (JStr s) => negb (String.eqb s EmptyString)
  | Some (JArr _) | Some (JObj _) => true
  end.

Definition isNull (value : JSON) : bool :=
  match value with
  | JNull => true
  | _ => false
  end.

Definition isArray (v : option JSON) : bool :=
  match v with
  | Some (JArr _) => true
  | _ => false
  end.

Definition JInt (n : nat) : JSON := JNum (Binary64.ofNat n).

(** The objects of a list whose [type] is [kind]. *)
Definition hasType (kind : string) (object : JSON) : bool :=
  match getField object "type" with
  | Some (JStr s) => String.eqb s kind
  | _ => false
  end.

Definition countType (kind : string) (objects : list JSON) : nat :=
  List.length (filter (hasType kind) objects).

End Json.

(** ** The data model declared by the function *)

Module Model.

Record ContentRecommendation := {
  rec_id : string;
  rec_type : string;
  originalContent : string;
  recommendedContent : string;
  applied : bool
}.

Record MonitoringTarget := {
  id : string;
  userId : string;
  websiteUrl : string;
  pageUrl : string;
  lastContentHash : string;
  recommendations : list ContentRecommendation;
  checkFrequency : string;
  lastChecked : string
}.

Record MonitoringResult := {
  targetId : string;
  res_websiteUrl : string;
  res_pageUrl : string;
  contentChanged : bool;
  recommendationsImplemented : bool;
  newContentHash : string;
  changesDetected : list string;
  implementedRecommendations : list string;
  checkTimestamp : string
}.

(** What scraping a page yields: [metadata] and [markdown]. *)
Record Metadata := { title : string; description : string }.
Record Page := { metadata : Metadata; markdown : string }.

(** A thrown [Error]. *)
Record JsError := { message : string }.

(** A [Response]: its status and the value given to
    [JSON.stringify]; the headers are the same on every response. *)
Record Response := { status : nat; body : Json.JSON }.

End Model.

(** ** Effects: the clock, the console, the arrays of one request

  [Date.now()] and [new Date()] read the clock, one reading per call;
  the two mock senders write their object to the console; the request
  handler owns the array of targets and the array of results.  A
  computation either returns or throws, and what it wrote before
  throwing stays written. *)

Module Effects.
Import Model.

Record State := {
  clock : nat -> Z;
  ticks : nat;
  outbox : list Json.JSON;
  targets : list MonitoringTarget;
  results : list MonitoringResult
}.

Definition M (A : Type) : Type := State -> (JsError + A) * State.

Definition ret {A} (a : A) : M A := fun st => (inr a, st).

Definition bind {A B} (c : M A) (k : A -> M B) : M B :=
  fun st =>
    match c st with
    | (inl e, st') => (inl e, st')
    | (inr a, st') => k a st'
    end.

Definition throw {A} (e : JsError) : M A := fun st => (inl e, st).

Definition tryCatch {A} (body : M A) (handler : JsError -> M A) : M A :=
  fun st =>
    match body st with
    | (inl e, st') => handler e st'
    | (inr a, st') => (inr a, st')
    end.

(** Awaiting a promise that is fulfilled or rejected. *)
Definition await {A} (outcome : JsError + A) : M A :=
  fun st => (outcome, st).

(** The state after one reading of the clock, one object written to
    the console, one [results.push(r)]. *)
Definition tick (st : State) : State :=
  {| clock := clock st; ticks := S (ticks st); outbox := outbox st;
     targets := targets st; results := results st |}.

Definition logged (object : Json.JSON) (st : State) : State :=
  {| clock := clock st; ticks := ticks st; outbox := outbox st ++ [object];
     targets := targets st; results := results st |}.

Definition pushed (r : MonitoringResult) (st : State) : State :=
  {| clock := clock st; ticks := ticks st; outbox := outbox st;
     targets := targets st; results := results st ++ [r] |}.

(** The state after [const mockTargets = ...] and [const results = []]. *)
Definition declared (ts : list MonitoringTarget) (st : State) : State :=
  {| clock := clock st; ticks := ticks st; outbox := outbox st;
     targets := ts; results := [] |}.

Definition dateNow : M Z := fun st => (inr (clock st (ticks st)), tick st).

Definition consoleLog (object : Json.JSON) : M unit :=
  fun st => (inr tt, logged object st).

Definition pushResult (r : MonitoringResult) : M unit :=
  fun st => (inr tt, pushed r st).

Definition getResults : M (list MonitoringResult) :=
  fun st => (inr (results st), st).

Definition declareArrays (ts : list MonitoringTarget) : M unit :=
  fun st => (inr tt, declared ts st).

Definition when (b : bool) (c : M unit) : M unit := if b then c else ret tt.

Fixpoint forEach {A} (items : list A) (body : A -> M unit) : M unit :=
  match items with
  | [] => ret tt
  | x :: rest => bind (body x) (fun _ => forEach rest body)
  end.

(** [items.map((item, index) => ...)] with an effectful callback. *)
Fixpoint mapIndexed {A B} (f : A -> nat -> M B) (items : list A) (index : nat)
  : M (list B) :=
  match items with
  | [] => ret []
  | x :: rest =>
      bind (f x index) (fun y =>
      bind (mapIndexed f rest (S index)) (fun ys => ret (y :: ys)))
  end.

End Effects.

Declare Scope js_scope.
Delimit Scope js_scope with js.
Notation "x <- c1 ;; c2" := (Effects.bind c1 (fun x => c2))
(at level 61, c1 at next level, right associativity) : js_scope.
Notation "c1 ;;; c2" := (Effects.bind c1 (fun _ => c2))
(at level 61, right associativity) : js_scope.

(** ** The monitoring pass: [/monitor] *)

Module Monitor.
Import Model Effects Json JsString JsDate.
Local Open Scope js_scope.

(** [JSON.stringify(metadata)] for the two string fields of [metadata]. *)
Definition stringifyMetadata (m : Metadata) : string :=
  ("{" ++ quoteJSONString "title" ++ ":" ++ quoteJSONString (title m) ++ ","
   ++ quoteJSONString "description" ++ ":" ++ quoteJSONString (description m) ++ "}")%string.

Definition hexByte (b : Z) : string := padStart 2 "0" (toString16 b).

Definition generateContentHash (metadata : Metadata) (content : string) : string :=
  let combinedContent := (stringifyMetadata metadata ++ content)%string in
  let data := utf8 combinedContent in
  let hashArray := Sha256.digest data in
  join (map hexByte hashArray).

Definition normalize (s : string) : string :=
  collapseWhitespace (toLowerCase s).

Definition isRecommendationImplemented
    (content : string) (recommendation : ContentRecommendation) : bool :=
  let normalizedContent := normalize content in
  let normalizedRecommendation := normalize (recommendedContent recommendation) in
  let words := split " " normalizedRecommendation in
  let matchedWords := filter (fun word => includes normalizedContent word) words in
  let matchPercentage :=
    Binary64.div (Binary64.ofNat (List.length matchedWords))
                 (Binary64.ofNat (List.length words)) in
  Binary64.geb matchPercentage Binary64.lit_0_7.

(** The loop over [target.recommendations]: the two variables it
    updates are the accumulators. *)
Fixpoint matchRecommendations (markdown : string) (recs : list ContentRecommendation)
    (implementedRecommendations : list string) (recommendationsImplemented : bool)
  : list string * bool :=
  match recs with
  | [] => (implementedRecommendations, recommendationsImplemented)
  | recommendation :: rest =>
      if isRecommendationImplemented markdown recommendation
      then matchRecommendations markdown rest
             (implementedRecommendations ++ [rec_id recommendation]) true
      else matchRecommendations markdown rest
             implementedRecommendations recommendationsImplemented
  end.

Definition detectChanges (metadata : Metadata) (target : MonitoringTarget)
    (contentChanged : bool) : list string :=
  if contentChanged then
    ["Content hash changed"]
    ++ (if negb (String.eqb (title metadata) (lastContentHash target))
        then ["Title tag modified"] else [])
    ++ (if negb (String.eqb (description metadata) (lastContentHash target))
        then ["Meta description modified"] else [])
  else [].

(** [checkWebsiteChanges] with the scraping of the page as a
    parameter: the source binds [metadata] and [markdown] to constants
    where production code is to scrape [target.pageUrl]. *)
Definition checkWebsiteChangesWith (scrape : string -> JsError + Page)
    (target : MonitoringTarget) : M MonitoringResult :=
  tryCatch
    (page <- await (scrape (pageUrl target)) ;;
     let metadata := metadata page in
     let markdown := markdown page in
     let currentContentHash := generateContentHash metadata markdown in
     let contentChanged :=
       negb (String.eqb currentContentHash (lastContentHash target)) in
     let '(implementedRecommendations, recommendationsImplemented) :=
       if contentChanged
       then matchRecommendations markdown (recommendations target) [] false
       else ([], false) in
     let changesDetected := detectChanges metadata target contentChanged in
     now <- dateNow ;;
     ret {| targetId := id target;
            res_websiteUrl := websiteUrl target;
            res_pageUrl := pageUrl target;
            contentChanged := contentChanged;
            recommendationsImplemented := recommendationsImplemented;
            newContentHash := currentContentHash;
            changesDetected := changesDetected;
            implementedRecommendations := implementedRecommendations;
            checkTimestamp := toISOString now |})
    (fun error => throw error).

Definition mockScrape (url : string) : JsError + Page :=
  inr {| metadata := {| title := "Sample Page Title";
                        description := "Sample page description" |};
         markdown := "Sample page content for monitoring demonstration" |}.

Definition checkWebsiteChanges : MonitoringTarget -> M MonitoringResult :=
  checkWebsiteChangesWith mockScrape.

Definition implementationNotification (target : MonitoringTarget)
    (result : MonitoringResult) : JSON :=
  JObj [("type", JStr "recommendation_implemented");
        ("websiteUrl", JStr (websiteUrl target));
        ("pageUrl", JStr (pageUrl target));
        ("implementedRecommendations", JArr (map JStr (implementedRecommendations result)));
        ("timestamp", JStr (checkTimestamp result));
        ("message", JStr ("Great news! Your SEO/LLMO recommendations have been implemented on "
                          ++ pageUrl target))].

Definition contentChangeAlert (target : MonitoringTarget)
    (result : MonitoringResult) : JSON :=
  JObj [("type", JStr "content_change_alert");
        ("websiteUrl", JStr (websiteUrl target));
        ("pageUrl", JStr (pageUrl target));
        ("changesDetected", JArr (map JStr (changesDetected result)));
        ("missedRecommendations",
          JInt (List.length (filter (fun r => negb (applied r)) (recommendations target))));
        ("timestamp", JStr (checkTimestamp result));
        ("message", JStr ("Content was updated on " ++ pageUrl target
                          ++ " but SEO/LLMO recommendations were not implemented. Consider applying the pending optimizations."))].

Definition sendImplementationNotification (target : MonitoringTarget)
    (result : MonitoringResult) : M unit :=
  consoleLog (implementationNotification target result).

Definition sendContentChangeAlert (target : MonitoringTarget)
    (result : MonitoringResult) : M unit :=
  consoleLog (contentChangeAlert target result).

(** The two [if] statements that follow [results.push(result)]. *)
Definition notify (target : MonitoringTarget) (result : MonitoringResult) : M unit :=
  when (recommendationsImplemented result)
       (sendImplementationNotification target result) ;;;
  when (contentChanged result && negb (recommendationsImplemented result))
       (sendContentChangeAlert target result).

Definition errorResult (target : MonitoringTarget) (error : JsError) (now : Z)
  : MonitoringResult :=
  {| targetId := id target;
     res_websiteUrl := websiteUrl target;
     res_pageUrl := pageUrl target;
     contentChanged := false;
     recommendationsImplemented := false;
     newContentHash := lastContentHash target;
     changesDetected := [("Error: " ++ message error)%string];
     implementedRecommendations := [];
     checkTimestamp := toISOString now |}.

(** The body of the [for] loop, for one target. *)
Definition monitorTarget (scrape : string -> JsError + Page)
    (target : MonitoringTarget) : M unit :=
  tryCatch
    (result <- checkWebsiteChangesWith scrape target ;;
     pushResult result ;;;
     notify target result)
    (fun error =>
       now <- dateNow ;;
       pushResult (errorResult target error now)).

Definition scheduleNextRun : M unit :=
  nextRun <- dateNow ;; ret tt.

Definition resultJSON (r : MonitoringResult) : JSON :=
  JObj [("targetId", JStr (targetId r));
        ("websiteUrl", JStr (res_websiteUrl r));
        ("pageUrl", JStr (res_pageUrl r));
        ("contentChanged", JBool (contentChanged r));
        ("recommendationsImplemented", JBool (recommendationsImplemented r));
        ("newContentHash", JStr (newContentHash r));
        ("changesDetected", JArr (map JStr (changesDetected r)));
        ("implementedRecommendations", JArr (map JStr (implementedRecommendations r)));
        ("checkTimestamp", JStr (checkTimestamp r))].

Definition summary (results : list MonitoringResult) : JSON :=
  JObj [("totalChecked", JInt (List.length results));
        ("contentChanges", JInt (List.length (filter contentChanged results)));
        ("recommendationsImplemented",
          JInt (List.length (filter recommendationsImplemented results)))].

(** [runDailyMonitoring] from the declaration of [results] on, with
    the array of targets and the scraping as parameters. *)
Definition runMonitoringOver (scrape : string -> JsError + Page)
    (mockTargets : list MonitoringTarget) : M Response :=
  declareArrays mockTargets ;;;
  forEach mockTargets (monitorTarget scrape) ;;;
  scheduleNextRun ;;;
  results <- getResults ;;
  now <- dateNow ;;
  ret {| status := 200;
         body := JObj [("success", JBool true);
                       ("message", JStr "Daily monitoring completed");
                       ("results", JArr (map resultJSON results));
                       ("summary", summary results);
                       ("timestamp", JStr (toISOString now))] |}.

Definition mockTargets (now : Z) : list MonitoringTarget :=
  [{| id := "target_001";
      userId := "user_123";
      websiteUrl := "https://example.com";
      pageUrl := "https://example.com/about";
      lastContentHash := "abc123def456";
      recommendations :=
        [{| rec_id := "rec_001";
            rec_type := "seo";
            originalContent := "About us page";
            recommendedContent := "Learn about our company's mission, values, and expert team";
            applied := false |}];
      checkFrequency := "daily";
      lastChecked := toISOString (now - 86400000) |}].

Definition runDailyMonitoring : M Response :=
  now <- dateNow ;;
  runMonitoringOver mockScrape (mockTargets now).

End Monitor.

(** ** Scheduling: [/schedule] *)

Module Schedule.
Import Model Effects Json JsString JsDate.
Local Open Scope js_scope.
Local Open Scope Z_scope.

(** The parameter is declared a string; the caller passes the value
    of the request, and [switch] compares with [===]. *)
Definition getFrequencyMs (frequency : JSON) : Z :=
  match frequency with
  | JStr s =>
      if String.eqb s "daily" then 24 * 60 * 60 * 1000
      else if String.eqb s "weekly" then 7 * 24 * 60 * 60 * 1000
      else if String.eqb s "monthly" then 30 * 24 * 60 * 60 * 1000
      else 24 * 60 * 60 * 1000
  | _ => 24 * 60 * 60 * 1000
  end.

(** A request: what [req.json()] settles to. *)
Record Request := { json : JsError + JSON }.

(** [const { websiteUrl, pageUrls, frequency = 'daily' } = body]. *)
Definition destructure (body : JSON) : M (option JSON * option JSON * JSON) :=
  match body with
  | JNull =>
      throw {| message := "Cannot destructure property 'websiteUrl' of 'body' as it is null." |}
  | _ =>
      ret (getField body "websiteUrl",
           getField body "pageUrls",
           match getField body "frequency" with
           | Some frequency => frequency
           | None => JStr "daily"
           end)
  end.

(** An object literal drops, once serialised, the keys whose value is
    [undefined]. *)
Definition field (key : string) (v : option JSON) : list (string * JSON) :=
  match v with
  | Some value => [(key, value)]
  | None => []
  end.

Definition newTarget (websiteUrl : option JSON) (frequency : JSON)
    (pageUrl : JSON) (index : nat) : M JSON :=
  idTime <- dateNow ;;
  createdAt <- dateNow ;;
  nextCheck <- dateNow ;;
  ret (JObj (("id", JStr ("target_" ++ toDecimal idTime ++ "_"
                          ++ toDecimal (Z.of_nat index))%string)
             :: field "websiteUrl" websiteUrl
             ++ [("pageUrl", pageUrl);
                 ("frequency", frequency);
                 ("createdAt", JStr (toISOString createdAt));
                 ("nextCheck", JStr (toISOString (nextCheck + getFrequencyMs frequency)))])).

Definition badRequest : Response :=
  {| status := 400;
     body := JObj [("error", JStr "websiteUrl and pageUrls array are required")] |}.

Definition scheduleMonitoring (req : Request) : M Response :=
  body <- await (json req) ;;
  fields <- destructure body ;;
  let '(websiteUrl, pageUrls, frequency) := fields in
  if negb (truthy websiteUrl) || negb (truthy pageUrls) || negb (isArray pageUrls)
  then ret badRequest
  else
    targets <- mapIndexed (newTarget websiteUrl frequency)
                 (match pageUrls with Some (JArr items) => items | _ => [] end) 0 ;;
    ret {| status := 200;
           body := JObj ([("success", JBool true);
                          ("message", JStr "Monitoring scheduled successfully");
                          ("targets", JArr targets)]
                         ++ field "nextCheck"
                              (match targets with
                               | first :: _ => getField first "nextCheck"
                               | [] => None
                               end)) |}.

End Schedule.

(** ** The wording of the specification, to compare the code with *)

Module Spec.
Import Model JsString.

(** ChangeDetector: inequality of the hashes, and no change reported
    on a first check. *)
Definition detect (oldHash newHash : string) : bool :=
  if isEmpty oldHash then false else negb (String.eqb oldHash newHash).

(** ImplementationMatcher: the tokens of the normalized suggested
    text, empty ones discarded. *)
Definition tokens (text : string) : list string :=
  filter (fun t => negb (isEmpty t)) (split " " (Monitor.normalize text)).

(** [matched / total >= 0.70] over the rationals. *)
Definition ratioAtLeast70 (matched total : nat) : bool :=
  Qle_bool (70 # 100) (Z.of_nat matched # Pos.of_nat total).

Definition isImplemented (currentBodyText : string)
    (recommendation : ContentRecommendation) : bool :=
  let toks := tokens (recommendedContent recommendation) in
  let matched :=
    filter (fun t => includes (Monitor.normalize currentBodyText) t) toks in
  match toks with
  | [] => true
  | _ => ratioAtLeast70 (List.length matched) (List.length toks)
  end.

(** NotificationDispatcher: the decision policy, in its order. *)
Definition dispatch (target : MonitoringTarget) (result : MonitoringResult)
  : list Json.JSON :=
  if recommendationsImplemented result
  then [Monitor.implementationNotification target result]
  else if contentChanged result
       then [Monitor.contentChangeAlert target result]
       else [].

(** Runner, step 4: the matcher runs on the pending recommendations
    only, and every match is marked applied. *)
Definition pendingMatches (body : string) (recs : list ContentRecommendation)
  : list ContentRecommendation :=
  filter (fun r => negb (applied r) && Monitor.isRecommendationImplemented body r) recs.

Definition markApplied (body : string) (recs : list ContentRecommendation)
  : list ContentRecommendation :=
  map (fun r =>
         if negb (applied r) && Monitor.isRecommendationImplemented body r
         then {| rec_id := rec_id r; rec_type := rec_type r;
                 originalContent := originalContent r;
                 recommendedContent := recommendedContent r;
                 applied := true |}
         else r) recs.

End Spec.

(** ** What one pass records for one target *)

Module Outcome.
Import Model Monitor.

(** The result of a check that returned, from the scraped page. *)
Definition checked (page : Page) (t : MonitoringTarget) (r : MonitoringResult) : Prop :=
  newContentHash r = generateContentHash (metadata page) (markdown page) /\
  contentChanged r = negb (String.eqb (newContentHash r) (lastContentHash t)) /\
  implementedRecommendations r =
    (if contentChanged r
     then map rec_id (filter (isRecommendationImplemented (markdown page))
                             (recommendations t))
     else []) /\
  recommendationsImplemented r =
    (contentChanged r
     && existsb (isRecommendationImplemented (markdown page)) (recommendations t)) /\
  changesDetected r = detectChanges (metadata page) t (contentChanged r).

(** The result recorded when the check threw [e]. *)
Definition failed (e : JsError) (t : MonitoringTarget) (r : MonitoringResult) : Prop :=
  contentChanged r = false /\
  recommendationsImplemented r = false /\
  newContentHash r = lastContentHash t /\
  changesDetected r = [("Error: " ++ message e)%string] /\
  implementedRecommendations r = [].

Definition recorded (scrape : string -> JsError + Page)
    (t : MonitoringTarget) (r : MonitoringResult) : Prop :=
  targetId r = id t /\ res_websiteUrl r = websiteUrl t /\ res_pageUrl r = pageUrl t /\
  match scrape (pageUrl t) with
  | inl e => failed e t r
  | inr page => checked page t r
  end.

End Outcome.

(** ** Sample inputs *)

Module Samples.
Import Model Effects Json.

Definition frozenClock : nat -> Z := fun _ => 1700000000000%Z.

Definition start : State :=
  {| clock := frozenClock; ticks := 0; outbox := []; targets := []; results := [] |}.

Definition suggestion (name text : string) (isApplied : bool) : ContentRecommendation :=
  {| rec_id := name; rec_type := "content"; originalContent := "About us page";
     recommendedContent := text; applied := isApplied |}.

Definition target (name hash : string) (recs : list ContentRecommendation)
  : MonitoringTarget :=
  {| id := name; userId := "user_123"; websiteUrl := "https://example.com";
     pageUrl := ("https://example.com/" ++ name)%string; lastContentHash := hash;
     recommendations := recs; checkFrequency := "daily";
     lastChecked := "2023-11-13T22:13:20.000Z" |}.

(** A target that was never checked. *)
Definition neverChecked : MonitoringTarget := target "fresh" EmptyString [].

(** A target with one applied and one pending recommendation, both
    present in the mock page. *)
Definition twoSuggestions : MonitoringTarget :=
  target "about" "abc123def456"
    [suggestion "rec_applied" "sample page" true;
     suggestion "rec_pending" "monitoring demonstration" false].

(** Scraping that fails for the page [broken] only. *)
Definition scrapeButBroken (url : string) : JsError + Page :=
  if String.eqb url "https://example.com/broken"
  then inl {| message := "fetch failed" |}
  else Monitor.mockScrape url.

Definition threeTargets : list MonitoringTarget :=
  [target "first" "abc123def456" []; target "broken" "abc123def456" [];
   target "third" "abc123def456" []].

Definition scheduleRequest : Schedule.Request :=
  {| Schedule.json :=
       inr (JObj [("websiteUrl", JStr "https://example.com");
                  ("pageUrls", JArr [JStr "https://example.com/a";
                                     JStr "https://example.com/b"]);
                  ("frequency", JStr "weekly")]) |}.

Definition requestWithoutPages : Schedule.Request :=
  {| Schedule.json := inr (JObj [("websiteUrl", JStr "https://example.com")]) |}.

End Samples.

(** * Properties *)

(** ** The primitives on known values *)

Module Conformance.
Import Model JsString JsDate Monitor.

Example sha256_abc :
  join (map hexByte (Sha256.digest (utf8 "abc")))
  = "ba7816bf8f01cfea414140de5dae2223b00361a396177a9cb410ff61f20015ad".
Proof. vm_compute. reflexivity. Qed.

Example sha256_of_nothing :
  join (map hexByte (Sha256.digest (utf8 EmptyString)))
  = "e3b0c44298fc1c149afbf4c8996fb92427ae41e4649b934ca495991b7852b855".
Proof. vm_compute. reflexivity. Qed.

(** Two blocks: 56 bytes leave no room for the length in the first. *)
Example sha256_two_blocks :
  join (map hexByte
          (Sha256.digest (utf8 "abcdbcdecdefdefgefghfghighijhijkijkljklmklmnlmnomnopnopq")))
  = "248d6a61d20638b8e5c026930c3e6039a33ce45964ff2167f6ecedd419db06c1".
Proof. vm_compute. reflexivity. Qed.

Example hash_of_the_mock_page :
  generateContentHash
    {| title := "Sample Page Title"; description := "Sample page description" |}
    "Sample page content for monitoring demonstration"
  = "57f4e6d6faf517e11fdad5c556e08399c7697358dba4fe1ac5c87a25e6a7f86d".
Proof. vm_compute. reflexivity. Qed.

Example iso_epoch : toISOString 0 = "1970-01-01T00:00:00.000Z".
Proof. vm_compute. reflexivity. Qed.

Example iso_leap_day : toISOString 1709251199999 = "2024-02-29T23:59:59.999Z".
Proof. vm_compute. reflexivity. Qed.

Example iso_sample_clock : toISOString 1700000000000 = "2023-11-14T22:13:20.000Z".
Proof. vm_compute. reflexivity. Qed.

Example normalize_sample :
  split " " (normalize "Learn  about	OUR mission") = ["learn"; "about"; "our"; "mission"].
Proof. vm_compute. reflexivity. Qed.

(** The literal [0.7] is the correctly rounded quotient of 7 by 10. *)
Example literal_0_7 :
  Binary64.div (Binary64.ofZ 7) (Binary64.ofZ 10) = Binary64.lit_0_7.
Proof. vm_compute. reflexivity. Qed.

Example one_is_a_number : Binary64.ofZ 1 = S754_finite false 4503599627370496 (-52).
Proof. vm_compute. reflexivity. Qed.

End Conformance.

Module JsStringFacts.
Import JsString.

Lemma lowerChar_space c : isWhiteSpace (lowerChar c) = isWhiteSpace c.
Proof. destruct c as [[] [] [] [] [] [] [] []]; reflexivity. Qed.

Lemma space_is_white c : Ascii.eqb c " " = true -> isWhiteSpace c = true.
Proof. intros H. apply Ascii.eqb_eq in H. subst c. reflexivity. Qed.

Lemma toLowerCase_length s : String.length (toLowerCase s) = String.length s.
Proof. induction s; simpl; congruence. Qed.

Lemma toLowerCase_starts s : startsWithSpace (toLowerCase s) = startsWithSpace s.
Proof. destruct s; simpl; [reflexivity | apply lowerChar_space]. Qed.

Lemma toLowerCase_ends s : endsWithSpace (toLowerCase s) = endsWithSpace s.
Proof.
  induction s as [|c s IH]; [reflexivity|].
  destruct s as [|c' s']; [apply lowerChar_space|].
  exact IH.
Qed.

Lemma toLowerCase_empty s : isEmpty (toLowerCase s) = isEmpty s.
Proof. destruct s; reflexivity. Qed.

Lemma collapse_length s : String.length (collapseWhitespace s) <= String.length s.
Proof.
  induction s as [|c s IH]; [simpl; lia|].
  simpl. destruct (isWhiteSpace c).
  - destruct s as [|c' s']; [simpl; lia|].
    destruct (isWhiteSpace c'); simpl in *; lia.
  - simpl. lia.
Qed.

Lemma split_nonempty sep s : split sep s <> [].
Proof.
  induction s as [|c s IH]; simpl; [discriminate|].
  destruct (Ascii.eqb c sep); [discriminate|].
  destruct (split sep s); [contradiction | discriminate].
Qed.

Lemma split_length sep s : List.length (split sep s) <= S (String.length s).
Proof.
  induction s as [|c s IH]; simpl; [lia|].
  destruct (Ascii.eqb c sep); simpl; [lia|].
  destruct (split sep s); simpl in *; lia.
Qed.

Lemma includes_empty s : includes s EmptyString = true.
Proof. destruct s; reflexivity. Qed.

(** The pieces of a collapsed text that does not end in white space:
    only the first one can be empty, and it is exactly when the text
    begins with white space. *)
Lemma split_collapse s :
  isEmpty s = false -> endsWithSpace s = false ->
  exists w ws,
    split " " (collapseWhitespace s) = w :: ws /\
    forallb (fun t => negb (isEmpty t)) ws = true /\
    isEmpty w = startsWithSpace s.
Proof.
  induction s as [|c s IH]; [discriminate|].
  intros _ Hend.
  destruct s as [|c' s'].
  - cbn [endsWithSpace] in Hend. cbn [collapseWhitespace startsWithSpace].
    rewrite Hend. cbn [split].
    assert (Ascii.eqb c " " = false) as ->.
    { destruct (Ascii.eqb c " ") eqn:E; [|reflexivity].
      apply space_is_white in E. congruence. }
    exists (String c EmptyString), []. repeat split.
  - destruct (IH eq_refl Hend) as (w & ws & Hs & Hws & Hw).
    change (collapseWhitespace (String c (String c' s'))) with
      (if isWhiteSpace c
       then if isWhiteSpace c' then collapseWhitespace (String c' s')
            else String " " (collapseWhitespace (String c' s'))
       else String c (collapseWhitespace (String c' s'))).
    cbn [startsWithSpace] in *.
    destruct (isWhiteSpace c) eqn:Ec.
    + destruct (isWhiteSpace c') eqn:Ec'.
      * exists w, ws. auto.
      * exists EmptyString, (w :: ws). cbn [split]. rewrite Hs.
        change (Ascii.eqb " " " ") with true. cbn [forallb].
        rewrite Hw, Hws. repeat split.
    + assert (Ascii.eqb c " " = false) as Hc.
      { destruct (Ascii.eqb c " ") eqn:E; [|reflexivity].
        apply space_is_white in E. congruence. }
      exists (String c w), ws. cbn [split]. rewrite Hc, Hs. repeat split. exact Hws.
Qed.

Lemma filter_all {A} (f : A -> bool) l : forallb f l = true -> filter f l = l.
Proof.
  induction l as [|x l IH]; [reflexivity|].
  simpl. intros H. apply andb_prop in H. destruct H as [Hx Hl].
  rewrite Hx, IH by exact Hl. reflexivity.
Qed.

(** A trimmed, non-empty text: no piece is empty. *)
Lemma split_collapse_trimmed s :
  isEmpty s = false -> trimmed s = true ->
  forallb (fun t => negb (isEmpty t)) (split " " (collapseWhitespace s)) = true.
Proof.
  intros Hne Ht. unfold trimmed in Ht. apply andb_prop in Ht. destruct Ht as [H1 H2].
  apply negb_true_iff in H1, H2.
  destruct (split_collapse s Hne H2) as (w & ws & Hs & Hws & Hw).
  rewrite Hs. cbn [forallb]. rewrite Hw, H1, Hws. reflexivity.
Qed.

Lemma collapse_allWhiteSpace s :
  allWhiteSpace s = true ->
  collapseWhitespace s = if isEmpty s then EmptyString else " ".
Proof.
  induction s as [|c s IH]; [reflexivity|].
  simpl. intros H. apply andb_prop in H. destruct H as [Hc Hs].
  rewrite Hc. destruct s as [|c' s']; [reflexivity|].
  simpl in Hs. apply andb_prop in Hs. destruct Hs as [Hc' Hs'].
  rewrite Hc'. rewrite IH by (simpl; rewrite Hc', Hs'; reflexivity). reflexivity.
Qed.

(** When every piece of the collapsed text is empty, the text is
    white space only. *)
Lemma split_collapse_all_empty s :
  forallb isEmpty (split " " (collapseWhitespace s)) = true -> allWhiteSpace s = true.
Proof.
  induction s as [|c s IH]; [reflexivity|].
  destruct s as [|c' s'].
  - cbn [collapseWhitespace allWhiteSpace]. destruct (isWhiteSpace c) eqn:Ec; [reflexivity|].
    cbn [split]. destruct (Ascii.eqb c " ") eqn:E.
    + apply space_is_white in E. congruence.
    + discriminate.
  - change (collapseWhitespace (String c (String c' s'))) with
      (if isWhiteSpace c
       then if isWhiteSpace c' then collapseWhitespace (String c' s')
            else String " " (collapseWhitespace (String c' s'))
       else String c (collapseWhitespace (String c' s'))).
    change (allWhiteSpace (String c (String c' s'))) with
      (isWhiteSpace c && allWhiteSpace (String c' s')).
    destruct (isWhiteSpace c) eqn:Ec.
    + destruct (isWhiteSpace c') eqn:Ec'.
      * exact IH.
      * cbn [split]. change (Ascii.eqb " " " ") with true. cbn [forallb].
        intros H. apply andb_prop in H. apply IH, H.
    + cbn [split]. destruct (Ascii.eqb c " ") eqn:E.
      * apply space_is_white in E. congruence.
      * destruct (split " " (collapseWhitespace (String c' s'))); discriminate.
Qed.

End JsStringFacts.

(** ** Binary64: the quotient of two token counts against [0.7]

    [SFdiv] is followed through its steps on the quotient of two
    positive integers: both operands are normal numbers with a 53-bit
    mantissa, the integer quotient of the mantissas has 53 or 54 bits,
    and rounding to nearest even decides on which side of the literal
    [0.7] the result falls. *)

Module Binary64Facts.
Import Binary64.
Local Open Scope Z_scope.

Ltac powers :=
  change (2 ^ 52) with 4503599627370496 in *;
  change (2 ^ 53) with 9007199254740992 in *;
  change (2 ^ 54) with 18014398509481984 in *.

(** The number of binary digits, as [Pos.size] and as [Z.log2]. *)
Lemma digits2_size p : digits2_pos p = Pos.size p.
Proof. induction p; simpl; congruence. Qed.

Lemma Zdigits2_log2 p : Zdigits2 (Zpos p) = Z.log2 (Zpos p) + 1.
Proof.
  unfold Zdigits2. rewrite digits2_size.
  destruct p; simpl; try rewrite Pos2Z.inj_succ; lia.
Qed.

Lemma Zdigits2_bounds z d : 0 < d -> 2 ^ (d - 1) <= z < 2 ^ d -> Zdigits2 z = d.
Proof.
  intros Hd Hz.
  assert (0 < z) by (assert (0 < 2 ^ (d - 1)) by (apply Z.pow_pos_nonneg; lia); lia).
  destruct z as [|p|p]; try lia.
  rewrite Zdigits2_log2.
  rewrite (Z.log2_unique (Zpos p) (d - 1)); try lia.
  replace (Z.succ (d - 1)) with d by lia. exact Hz.
Qed.

(** Comparison of a positive finite number with the literal [0.7]. *)
Lemma atLeast_finite m e :
  atLeast_0_7 (S754_finite false m e) = (-53 <? e) || ((e =? -53) && (mantissa_0_7 <=? Zpos m)).
Proof.
  unfold atLeast_0_7, geb, SFleb, SFcompare, lit_0_7.
  destruct (Z.compare_spec (-53) e) as [H|H|H].
  - subst e. simpl.
    change (Pos.compare_cont Eq 6305039478318694 m) with (Pos.compare 6305039478318694 m).
    unfold mantissa_0_7, Z.leb. simpl Z.compare.
    destruct (Pos.compare 6305039478318694 m); reflexivity.
  - replace (-53 <? e) with true by (symmetry; apply Z.ltb_lt; lia). reflexivity.
  - replace (-53 <? e) with false by (symmetry; apply Z.ltb_ge; lia).
    replace (e =? -53) with false by (symmetry; apply Z.eqb_neq; lia). reflexivity.
Qed.

(** The location of a remainder [r] of a division by [B]: where
    [r / B] lies with respect to one half. *)
Lemma new_location_spec B r : 0 <= r < B ->
  new_location B r = if r =? 0 then loc_Exact else loc_Inexact (2 * r ?= B).
Proof.
  intros H. unfold new_location, new_location_even, new_location_odd.
  destruct (Z.even B) eqn:E; destruct (r =? 0) eqn:R; try reflexivity.
  f_equal.
  assert (Z.odd B = true) by (rewrite <- Z.negb_even, E; reflexivity).
  apply Z.odd_spec in H0. destruct H0 as [k Hk].
  destruct (Z.compare_spec (2 * r + 1) B); destruct (Z.compare_spec (2 * r) B);
    try reflexivity; lia.
Qed.

(** Rounding a mantissa of 53 bits (no shift) or 54 bits (one shift). *)
Lemma fexp_normal e : -1021 <= e -> fexp 53 1024 e = e - 53.
Proof. intros. unfold fexp, emin. lia. Qed.

Lemma shr_fexp_53 q e l : 2 ^ 52 <= q < 2 ^ 53 -> -1074 <= e ->
  shr_fexp 53 1024 q e l = (shr_record_of_loc q l, e).
Proof.
  intros Hq He. unfold shr_fexp.
  rewrite (Zdigits2_bounds q 53) by (simpl Z.sub; lia).
  rewrite fexp_normal by lia.
  replace (53 + e - 53 - e) with 0 by lia. reflexivity.
Qed.

Lemma shr_fexp_54 q e l : 2 ^ 53 <= q < 2 ^ 54 -> -1075 <= e ->
  shr_fexp 53 1024 q e l = (shr_1 (shr_record_of_loc q l), e + 1).
Proof.
  intros Hq He. unfold shr_fexp.
  rewrite (Zdigits2_bounds q 54) by (simpl Z.sub; lia).
  rewrite fexp_normal by lia.
  replace (54 + e - 53 - e) with 1 by lia. reflexivity.
Qed.

Lemma loc_of_record_of_loc q l : loc_of_shr_record (shr_record_of_loc q l) = l.
Proof. destruct l as [|[]]; reflexivity. Qed.

Lemma shr_m_record_of_loc q l : shr_m (shr_record_of_loc q l) = q.
Proof. destruct l as [|[]]; reflexivity. Qed.

Lemma shr_1_record q l : 0 <= q ->
  shr_1 (shr_record_of_loc q l) =
  {| shr_m := q / 2; shr_r := Z.odd q; shr_s := inexact l |}.
Proof.
  intros Hq.
  assert (E : forall r s, shr_1 {| shr_m := q; shr_r := r; shr_s := s |} =
              {| shr_m := q / 2; shr_r := Z.odd q; shr_s := r || s |}).
  { intros r s. unfold shr_1.
    destruct q as [|p|p]; try lia; [reflexivity|].
    destruct p as [p|p|]; try reflexivity.
    - f_equal. rewrite Pos2Z.inj_xI.
      apply (Z.div_unique_pos _ _ _ 1); lia.
    - f_equal. rewrite Pos2Z.inj_xO.
      apply (Z.div_unique_pos _ _ _ 0); lia. }
  destruct l as [|[]]; simpl shr_record_of_loc; rewrite E; reflexivity.
Qed.

Lemma round_exact q' e : 2 ^ 52 <= q' <= 2 ^ 53 -> -1074 <= e <= 970 ->
  (let '(mrs, e'') := shr_fexp 53 1024 q' e loc_Exact in
   match shr_m mrs with
   | Z0 => S754_zero false
   | Zpos m => if Z.leb e'' (1024 - 53) then S754_finite false m e'' else S754_infinity false
   | _ => S754_nan
   end) = renormalized q' e.
Proof.
  intros Hq He. unfold renormalized.
  destruct (Z.ltb_spec q' (2 ^ 53)).
  - rewrite shr_fexp_53 by lia. simpl shr_m.
    destruct q' as [|p|p]; try (exfalso; simpl in *; lia).
    replace (e <=? 1024 - 53) with true by (symmetry; apply Z.leb_le; lia). reflexivity.
  - assert (q' = 2 ^ 53) by lia. subst q'.
    rewrite shr_fexp_54 by (simpl; lia). simpl shr_m.
    replace (e + 1 <=? 1024 - 53) with true by (symmetry; apply Z.leb_le; lia). reflexivity.
Qed.

Lemma rne_bounds q l : q <= round_nearest_even q l <= q + 1.
Proof. destruct l as [|[]]; simpl; try destruct (Z.even q); lia. Qed.

Lemma binary_round_aux_53 q e l : 2 ^ 52 <= q < 2 ^ 53 -> -1074 <= e <= 970 ->
  binary_round_aux 53 1024 false q e l = renormalized (round_nearest_even q l) e.
Proof.
  intros Hq He. unfold binary_round_aux.
  rewrite shr_fexp_53 by lia.
  rewrite loc_of_record_of_loc, shr_m_record_of_loc.
  apply round_exact; [|lia].
  pose proof (rne_bounds q l). lia.
Qed.

Lemma binary_round_aux_54 q e l : 2 ^ 53 <= q < 2 ^ 54 -> -1075 <= e <= 969 ->
  binary_round_aux 53 1024 false q e l =
  renormalized (round_nearest_even (q / 2) (shiftedLocation q l)) (e + 1).
Proof.
  intros Hq He. unfold binary_round_aux.
  rewrite shr_fexp_54 by lia.
  rewrite shr_1_record by lia. simpl shr_m. fold (shiftedLocation q l).
  apply round_exact; [|lia].
  pose proof (rne_bounds (q / 2) (shiftedLocation q l)).
  assert (2 ^ 52 <= q / 2 < 2 ^ 53).
  { change (2 ^ 53) with (2 * 2 ^ 52) in Hq. change (2 ^ 54) with (2 * 2 ^ 53) in Hq.
    split; [apply Z.div_le_lower_bound; lia | apply Z.div_lt_upper_bound; lia]. }
  lia.
Qed.

(** Division of two normal numbers: the integer quotient of the
    mantissas, the first scaled by 2^53, then one rounding. *)
Lemma SFdiv_canon A B ex ey :
  2 ^ 52 <= Zpos A < 2 ^ 53 -> 2 ^ 52 <= Zpos B < 2 ^ 53 ->
  -60 <= ex <= 0 -> -60 <= ey <= 0 ->
  SFdiv 53 1024 (S754_finite false A ex) (S754_finite false B ey) =
  binary_round_aux 53 1024 false ((Zpos A * 2 ^ 53) / Zpos B) (ex - ey - 53)
    (new_location (Zpos B) ((Zpos A * 2 ^ 53) mod Zpos B)).
Proof.
  intros HA HB Hex Hey. unfold SFdiv, SFdiv_core_binary.
  rewrite (Zdigits2_bounds (Zpos A) 53), (Zdigits2_bounds (Zpos B) 53) by (simpl Z.sub; lia).
  rewrite fexp_normal by lia.
  replace (Z.min (53 + ex - (53 + ey) - 53) (ex - ey)) with (ex - ey - 53) by lia.
  replace (ex - ey - (ex - ey - 53)) with 53 by lia.
  rewrite Z.shiftl_mul_pow2 by lia.
  unfold Z.div, Z.modulo.
  destruct (Z.div_eucl (Zpos A * 2 ^ 53) (Zpos B)) as [q r]. reflexivity.
Qed.

Lemma mantissa_0_7_val : mantissa_0_7 = 6305039478318694.
Proof. reflexivity. Qed.

Lemma rne_below_mantissa_0_7 l :
  (mantissa_0_7 <=? round_nearest_even (mantissa_0_7 - 1) l) = roundsUp l.
Proof. destruct l as [|[]]; vm_compute; reflexivity. Qed.

(** The rounded mantissa reaches the mantissa of [0.7] exactly when the
    exact quotient reaches the midpoint below it. *)
Lemma rne_53_threshold B q r N :
  0 < B -> N = B * q + r -> 0 <= r < B ->
  (mantissa_0_7 <=? round_nearest_even q (if r =? 0 then loc_Exact else loc_Inexact (2 * r ?= B)))
  = ((2 * mantissa_0_7 - 1) * B <=? 2 * N).
Proof.
  intros HB HN Hr. pose proof mantissa_0_7_val as HM.
  assert (Hc : q <= mantissa_0_7 - 2 \/ q = mantissa_0_7 - 1 \/ mantissa_0_7 <= q) by lia.
  pose proof (rne_bounds q (if r =? 0 then loc_Exact else loc_Inexact (2 * r ?= B))) as Hb.
  destruct Hc as [Hc|[Hc|Hc]].
  - rewrite (proj2 (Z.leb_gt _ _)) by lia. symmetry. apply Z.leb_gt. nia.
  - subst q. clear Hb. rewrite rne_below_mantissa_0_7.
    destruct (Z.eqb_spec r 0) as [R|R]; cbn [roundsUp].
    + symmetry. apply Z.leb_gt. lia.
    + destruct (Z.compare_spec (2 * r) B); cbn [roundsUp]; symmetry;
        [apply Z.leb_le | apply Z.leb_gt | apply Z.leb_le]; lia.
  - rewrite (proj2 (Z.leb_le _ _)) by lia. symmetry. apply Z.leb_le. nia.
Qed.

Lemma shiftedLocation_roundsUp q l : roundsUp (shiftedLocation q l) = Z.odd q.
Proof. unfold shiftedLocation. destruct (Z.odd q), (inexact l); reflexivity. Qed.

Lemma rne_54_threshold B q r N l :
  0 < B -> N = B * q + r -> 0 <= r < B -> 0 <= q ->
  (mantissa_0_7 <=? round_nearest_even (q / 2) (shiftedLocation q l))
  = ((2 * mantissa_0_7 - 1) * B <=? N).
Proof.
  intros HB HN Hr Hq. pose proof mantissa_0_7_val as HM.
  pose proof (rne_bounds (q / 2) (shiftedLocation q l)) as Hb.
  pose proof (Z.div_mod q 2 ltac:(lia)) as Hd.
  pose proof (Z.mod_pos_bound q 2 ltac:(lia)) as Hm.
  assert (Hc : q / 2 <= mantissa_0_7 - 2 \/ q / 2 = mantissa_0_7 - 1 \/ mantissa_0_7 <= q / 2)
    by lia.
  destruct Hc as [Hc|[Hc|Hc]].
  - rewrite (proj2 (Z.leb_gt _ _)) by lia. symmetry. apply Z.leb_gt. nia.
  - clear Hb. rewrite Hc, rne_below_mantissa_0_7, shiftedLocation_roundsUp.
    pose proof (Zmod_odd q) as Ho.
    destruct (Z.odd q); symmetry; [apply Z.leb_le | apply Z.leb_gt]; nia.
  - rewrite (proj2 (Z.leb_le _ _)) by lia. symmetry. apply Z.leb_le. nia.
Qed.

Lemma atLeast_renormalized q' e :
  2 ^ 52 <= q' <= 2 ^ 53 ->
  atLeast_0_7 (renormalized q' e) =
  if e =? -53 then (mantissa_0_7 <=? q') else (-54 <? e).
Proof.
  intros Hq. unfold renormalized. pose proof mantissa_0_7_val as HM.
  destruct (Z.ltb_spec q' (2 ^ 53)); rewrite atLeast_finite.
  - rewrite Z2Pos.id by lia.
    destruct (Z.eqb_spec e (-53)) as [->|Hne].
    + reflexivity.
    + rewrite andb_false_l, orb_false_r.
      destruct (Z.ltb_spec (-53) e), (Z.ltb_spec (-54) e); try reflexivity; lia.
  - rewrite Z2Pos.id by (simpl; lia).
    assert (q' = 2 ^ 53) by lia. subst q'.
    replace (mantissa_0_7 <=? 2 ^ 52) with false by (symmetry; apply Z.leb_gt; simpl; lia).
    rewrite andb_false_r, orb_false_r.
    replace (mantissa_0_7 <=? 2 ^ 53) with true by (symmetry; apply Z.leb_le; simpl; lia).
    destruct (Z.eqb_spec e (-53)); destruct (Z.ltb_spec (-53) (e + 1)), (Z.ltb_spec (-54) e);
      try reflexivity; lia.
Qed.

(** The quotient of two normal numbers whose mantissas are multiples
    of 16 (integers below 2^49), against [0.7]: the comparison of the
    exact ratio with 7/10. *)
Lemma quotient_of_normals A B ex ey :
  2 ^ 52 <= Zpos A < 2 ^ 53 -> 2 ^ 52 <= Zpos B < 2 ^ 53 ->
  (16 | Zpos A) -> (16 | Zpos B) ->
  -60 <= ex <= ey -> ey <= 0 ->
  atLeast_0_7 (SFdiv 53 1024 (S754_finite false A ex) (S754_finite false B ey))
  = (7 * (Zpos B * 2 ^ (ey - ex)) <=? 10 * Zpos A).
Proof.
  intros HA HB [a Ha] [b Hb] Hex Hey.
  rewrite SFdiv_canon by lia.
  set (N := Zpos A * 2 ^ 53).
  pose proof (Z.div_mod N (Zpos B) ltac:(lia)) as Hdm.
  pose proof (Z.mod_pos_bound N (Zpos B) ltac:(lia)) as Hr.
  rewrite new_location_spec by exact Hr.
  set (q := N / Zpos B) in *. set (r := N mod Zpos B) in *.
  pose proof mantissa_0_7_val as HM.
  assert (HN : N = Zpos A * 9007199254740992) by reflexivity.
  powers.
  assert (Hq : 4503599627370496 <= q < 18014398509481984) by nia.
  assert (Hd : ey - ex = 0 \/ ey - ex = 1 \/ 2 <= ey - ex) by lia.
  assert (Hp : ey - ex = 0 /\ 2 ^ (ey - ex) = 1 \/ ey - ex = 1 /\ 2 ^ (ey - ex) = 2
               \/ 2 <= ey - ex /\ 4 <= 2 ^ (ey - ex)).
  { destruct Hd as [E|[E|E]]; [left|right;left|right;right]; split; try lia.
    - rewrite E; reflexivity.
    - rewrite E; reflexivity.
    - change 4 with (2 ^ 2). apply Z.pow_le_mono_r; lia. }
  clear Hd.
  destruct (Z.lt_ge_cases q 9007199254740992) as [Hq53|Hq54].
  - rewrite binary_round_aux_53 by (powers; lia).
    set (l := if r =? 0 then _ else _).
    pose proof (rne_bounds q l) as Hb'.
    rewrite atLeast_renormalized by (powers; lia).
    destruct Hp as [[E P]|[[E P]|[E P]]].
    + replace (ex - ey - 53 =? -53) with true by (symmetry; apply Z.eqb_eq; lia).
      unfold l. rewrite (rne_53_threshold (Zpos B) q r N) by lia.
      rewrite P.
      destruct (Z.leb_spec ((2 * mantissa_0_7 - 1) * Zpos B) (2 * N)); symmetry;
        [apply Z.leb_le | apply Z.leb_gt]; lia.
    + replace (ex - ey - 53 =? -53) with false by (symmetry; apply Z.eqb_neq; lia).
      replace (-54 <? ex - ey - 53) with false by (symmetry; apply Z.ltb_ge; lia).
      symmetry; apply Z.leb_gt. nia.
    + replace (ex - ey - 53 =? -53) with false by (symmetry; apply Z.eqb_neq; lia).
      replace (-54 <? ex - ey - 53) with false by (symmetry; apply Z.ltb_ge; lia).
      symmetry; apply Z.leb_gt. nia.
  - rewrite binary_round_aux_54 by (powers; lia).
    set (l := if r =? 0 then _ else _).
    pose proof (rne_bounds (q / 2) (shiftedLocation q l)) as Hb'.
    assert (4503599627370496 <= q / 2 < 9007199254740992).
    { split; [apply Z.div_le_lower_bound; lia | apply Z.div_lt_upper_bound; lia]. }
    rewrite atLeast_renormalized by (powers; lia).
    destruct Hp as [[E P]|[[E P]|[E P]]].
    + replace (ex - ey - 53 + 1 =? -53) with false by (symmetry; apply Z.eqb_neq; lia).
      replace (-54 <? ex - ey - 53 + 1) with true by (symmetry; apply Z.ltb_lt; lia).
      symmetry; apply Z.leb_le. nia.
    + replace (ex - ey - 53 + 1 =? -53) with true by (symmetry; apply Z.eqb_eq; lia).
      rewrite (rne_54_threshold (Zpos B) q r N) by lia.
      rewrite P.
      destruct (Z.leb_spec ((2 * mantissa_0_7 - 1) * Zpos B) N); symmetry;
        [apply Z.leb_le | apply Z.leb_gt]; lia.
    + replace (ex - ey - 53 + 1 =? -53) with false by (symmetry; apply Z.eqb_neq; lia).
      replace (-54 <? ex - ey - 53 + 1) with false by (symmetry; apply Z.ltb_ge; lia).
      symmetry; apply Z.leb_gt. nia.
Qed.

Lemma iter_xO_pow p k : Zpos (Pos.iter xO p k) = Zpos p * 2 ^ Zpos k.
Proof.
  revert p. induction k using Pos.peano_ind; intros p.
  - simpl. lia.
  - rewrite Pos.iter_succ, Pos2Z.inj_xO, IHk, Pos2Z.inj_succ, Z.pow_succ_r by lia. lia.
Qed.

Lemma log2_bounds z : 0 < z -> 2 ^ (Z.log2 z) <= z < 2 ^ (Z.log2 z + 1).
Proof. intros H. apply (Z.log2_spec z H). Qed.

(** The Number holding a positive integer below 2^53. *)
Lemma ofZ_canonical z :
  0 < z < 2 ^ 53 ->
  exists mz,
    ofZ z = S754_finite false mz (Z.log2 z - 52) /\
    Zpos mz = z * 2 ^ (52 - Z.log2 z) /\
    2 ^ 52 <= Zpos mz < 2 ^ 53.
Proof.
  intros Hz.
  destruct z as [|p|p]; try lia.
  pose proof (log2_bounds (Zpos p) ltac:(lia)) as Hl.
  pose proof (Z.log2_nonneg (Zpos p)) as Hl0.
  assert (Hl53 : Z.log2 (Zpos p) < 53).
  { apply Z.log2_lt_pow2; lia. }
  set (d := Z.log2 (Zpos p)) in *.
  assert (Hscale : 2 ^ 52 <= Zpos p * 2 ^ (52 - d) < 2 ^ 53).
  { replace (2 ^ 52) with (2 ^ d * 2 ^ (52 - d))
      by (rewrite <- Z.pow_add_r by lia; f_equal; lia).
    replace (2 ^ 53) with (2 ^ (d + 1) * 2 ^ (52 - d))
      by (rewrite <- Z.pow_add_r by lia; f_equal; lia).
    assert (0 < 2 ^ (52 - d)) by (apply Z.pow_pos_nonneg; lia).
    nia. }
  unfold ofZ, binary_normalize, binary_round.
  change (Zpos (digits2_pos p)) with (Zdigits2 (Zpos p)).
  rewrite Zdigits2_log2. fold d.
  rewrite fexp_normal by lia.
  unfold shl_align.
  destruct (d + 1 + 0 - 53 - 0) as [|k|k] eqn:E; try lia.
  - assert (d = 52) by lia.
    exists p. replace (52 - d) with 0 in * by lia. rewrite Z.mul_1_r in *.
    rewrite binary_round_aux_53 by lia. cbn [round_nearest_even].
    unfold renormalized. rewrite (proj2 (Z.ltb_lt _ _)) by lia. rewrite Pos2Z.id.
    repeat split; try lia. f_equal. lia.
  - exists (Pos.iter xO p k).
    assert (Hk : Zpos k = 52 - d) by lia.
    rewrite binary_round_aux_53 by (rewrite ?iter_xO_pow, ?Hk; lia). cbn [round_nearest_even].
    unfold renormalized. rewrite (proj2 (Z.ltb_lt _ _)) by (rewrite iter_xO_pow, Hk; lia).
    rewrite Pos2Z.id, iter_xO_pow, Hk.
    repeat split; try lia. f_equal. lia.
Qed.

(** The quotient of two integers [0 <= m <= n < 2^49] is at least the
    literal [0.7] exactly when [7 * n <= 10 * m]. *)
Lemma ratio_threshold (m n : Z) :
  0 <= m <= n -> 0 < n < 2 ^ 49 ->
  atLeast_0_7 (SFdiv 53 1024 (ofZ m) (ofZ n)) = (7 * n <=? 10 * m).
Proof.
  intros Hm Hn.
  assert (Hn53 : n < 2 ^ 53) by lia.
  destruct (ofZ_canonical n ltac:(lia)) as (B & EB & VB & RB).
  destruct (Z.eq_dec m 0) as [->|Hm0].
  - rewrite EB.
    change (atLeast_0_7 (SFdiv 53 1024 (ofZ 0) (S754_finite false B (Z.log2 n - 52))))
      with false.
    symmetry. apply Z.leb_gt. lia.
  - destruct (ofZ_canonical m ltac:(lia)) as (A & EA & VA & RA).
    rewrite EA, EB.
    assert (Hlm : 0 <= Z.log2 m) by apply Z.log2_nonneg.
    assert (Hle : Z.log2 m <= Z.log2 n) by (apply Z.log2_le_mono; lia).
    assert (Hln : Z.log2 n < 49) by (apply Z.log2_lt_pow2; lia).
    assert (H16 : forall k x, 0 <= k < 49 -> (16 | x * 2 ^ (52 - k))).
    { intros k x Hk. replace (52 - k) with (4 + (48 - k)) by lia.
      rewrite Z.pow_add_r by lia. change (2 ^ 4) with 16.
      exists (x * 2 ^ (48 - k)). lia. }
    rewrite quotient_of_normals; try lia.
    + replace (Z.log2 n - 52 - (Z.log2 m - 52)) with (Z.log2 n - Z.log2 m) by lia.
      rewrite VA, VB, <- Z.mul_assoc, <- Z.pow_add_r by lia.
      replace (52 - Z.log2 n + (Z.log2 n - Z.log2 m)) with (52 - Z.log2 m) by lia.
      assert (0 < 2 ^ (52 - Z.log2 m)) by (apply Z.pow_pos_nonneg; lia).
      destruct (Z.leb_spec (7 * n) (10 * m)); [apply Z.leb_le | apply Z.leb_gt]; nia.
    + rewrite VA. apply H16; lia.
    + rewrite VB. apply H16; lia.
Qed.

(** For token counts a string can hold, the comparison of the binary64
    quotient with the literal [0.7] is the comparison of the exact
    ratio with 7/10. *)
Lemma quotient_atLeast_0_7 (matched total : nat) :
  (matched <= total)%nat -> (0 < total)%nat -> Z.of_nat total < 2 ^ 49 ->
  geb (div (ofNat matched) (ofNat total)) lit_0_7 = (7 * total <=? 10 * matched)%nat.
Proof.
  intros Hm Ht Hb.
  change (geb (div (ofNat matched) (ofNat total)) lit_0_7)
    with (atLeast_0_7 (SFdiv 53 1024 (ofZ (Z.of_nat matched)) (ofZ (Z.of_nat total)))).
  rewrite ratio_threshold by lia.
  destruct (Z.leb_spec (7 * Z.of_nat total) (10 * Z.of_nat matched));
    symmetry; [apply Nat.leb_le | apply Nat.leb_gt]; lia.
Qed.

End Binary64Facts.

Module HashFacts.
Import JsString Monitor.

Lemma hexByte_table :
  forallb (fun n => String.length (hexByte (Z.of_nat n)) =? 2) (seq 0 256) = true.
Proof. vm_compute. reflexivity. Qed.

Lemma hexByte_length b : (0 <= b < 256)%Z -> String.length (hexByte b) = 2.
Proof.
  intros Hb.
  pose proof hexByte_table as T. rewrite forallb_forall in T.
  specialize (T (Z.to_nat b)). rewrite Z2Nat.id in T by lia.
  apply Nat.eqb_eq, T, in_seq. lia.
Qed.

Lemma bigEndian_bytes width x :
  Forall (fun b => (0 <= b < 256)%Z) (Sha256.bigEndian width x).
Proof.
  unfold Sha256.bigEndian. apply Forall_map, Forall_forall.
  intros i _. apply Z.mod_pos_bound. lia.
Qed.

Lemma bigEndian_length width x : List.length (Sha256.bigEndian width x) = width.
Proof. unfold Sha256.bigEndian. rewrite length_map, length_rev, length_seq. reflexivity. Qed.

Lemma digest_length msg : List.length (Sha256.digest msg) = 32.
Proof.
  unfold Sha256.digest. cbv zeta.
  generalize (fold_left Sha256.compress
                (Sha256.blocksOf (List.length (Sha256.wordsOf (Sha256.pad msg)))
                   (Sha256.wordsOf (Sha256.pad msg))) Sha256.initial).
  intros s. cbn [flat_map]. rewrite !length_app, !bigEndian_length. reflexivity.
Qed.

Lemma digest_bytes msg : Forall (fun b => (0 <= b < 256)%Z) (Sha256.digest msg).
Proof.
  unfold Sha256.digest. cbv zeta. apply Forall_flat_map, Forall_forall.
  intros x _. apply bigEndian_bytes.
Qed.

Lemma append_length (s1 s2 : string) :
  String.length (s1 ++ s2) = String.length s1 + String.length s2.
Proof. induction s1 as [|c s1 IH]; simpl; [reflexivity | rewrite IH; reflexivity]. Qed.

Lemma join_length (pieces : list string) n :
  Forall (fun p => String.length p = n) pieces ->
  String.length (join pieces) = n * List.length pieces.
Proof.
  unfold join. induction 1 as [|p ps Hp Hps IH]; [simpl; lia|].
  cbn [String.concat List.length]. destruct ps as [|p' ps'].
  - simpl. lia.
  - rewrite append_length. cbn [String.append]. rewrite IH, Hp.
    cbn [List.length]. lia.
Qed.

(** The hash is always 64 hexadecimal digits. *)
Lemma generateContentHash_length metadata content :
  String.length (generateContentHash metadata content) = 64.
Proof.
  unfold generateContentHash. cbv zeta.
  rewrite (join_length _ 2).
  - rewrite length_map, digest_length. reflexivity.
  - apply Forall_map. eapply Forall_impl; [|apply digest_bytes].
    intros b Hb. apply hexByte_length, Hb.
Qed.

Lemma generateContentHash_not_empty metadata content :
  String.eqb (generateContentHash metadata content) EmptyString = false.
Proof.
  destruct (generateContentHash metadata content) eqn:E; [|reflexivity].
  pose proof (generateContentHash_length metadata content) as L.
  rewrite E in L. discriminate.
Qed.

End HashFacts.

Module RunFacts.
Import Model Effects Json JsDate Monitor Outcome.

Ltac fields :=
  cbn [targetId res_websiteUrl res_pageUrl contentChanged recommendationsImplemented
       newContentHash changesDetected implementedRecommendations checkTimestamp
       clock ticks outbox targets results tick pushed logged declared].

Lemma matchRecommendations_spec markdown recs acc flag :
  matchRecommendations markdown recs acc flag =
  (acc ++ map rec_id (filter (isRecommendationImplemented markdown) recs),
   flag || existsb (isRecommendationImplemented markdown) recs).
Proof.
  revert acc flag. induction recs as [|r recs IH]; intros acc flag; simpl.
  - rewrite app_nil_r, orb_false_r. reflexivity.
  - destruct (isRecommendationImplemented markdown r); rewrite IH; simpl.
    + rewrite <- app_assoc, orb_true_r. reflexivity.
    + reflexivity.
Qed.

Lemma check_throws scrape t st e :
  scrape (pageUrl t) = inl e ->
  checkWebsiteChangesWith scrape t st = (inl e, st).
Proof.
  intros H. unfold checkWebsiteChangesWith, tryCatch, bind, await, throw.
  rewrite H. reflexivity.
Qed.

Lemma check_returns scrape t st page :
  scrape (pageUrl t) = inr page ->
  exists r,
    checkWebsiteChangesWith scrape t st = (inr r, tick st) /\
    targetId r = id t /\ res_websiteUrl r = websiteUrl t /\ res_pageUrl r = pageUrl t /\
    checkTimestamp r = toISOString (clock st (ticks st)) /\
    checked page t r.
Proof.
  intros H. unfold checkWebsiteChangesWith, tryCatch, bind, await.
  rewrite H. cbv zeta. unfold checked.
  destruct (negb (generateContentHash (metadata page) (markdown page)
                  =? lastContentHash t)%string) eqn:E.
  - rewrite matchRecommendations_spec. eexists. split; [reflexivity|].
    fields. rewrite E. repeat split.
  - eexists. split; [reflexivity|]. fields. rewrite E. repeat split.
Qed.

(** A check either throws what scraping threw, or returns. *)
Lemma check_cases scrape t st r st' :
  checkWebsiteChangesWith scrape t st = (inr r, st') ->
  exists page, scrape (pageUrl t) = inr page /\ checked page t r /\ st' = tick st.
Proof.
  intros H. destruct (scrape (pageUrl t)) as [e|page] eqn:S.
  - rewrite (check_throws _ _ _ _ S) in H. discriminate.
  - destruct (check_returns _ _ st _ S) as (r' & Hr & _ & _ & _ & _ & Hc).
    rewrite Hr in H. inversion H; subst. exists page. auto.
Qed.

Lemma notify_run t r st :
  exists st',
    notify t r st = (inr tt, st') /\
    outbox st' = outbox st ++ Spec.dispatch t r /\
    results st' = results st /\ targets st' = targets st /\
    clock st' = clock st /\ ticks st' = ticks st.
Proof.
  unfold notify, when, bind, sendImplementationNotification, sendContentChangeAlert,
    consoleLog, ret, Spec.dispatch.
  destruct (recommendationsImplemented r), (contentChanged r); cbn;
    eexists; (split; [reflexivity|]); cbn; rewrite ?app_nil_r; repeat split.
Qed.

Lemma monitorTarget_records scrape t st :
  exists r st',
    monitorTarget scrape t st = (inr tt, st') /\
    results st' = results st ++ [r] /\
    outbox st' = outbox st ++ Spec.dispatch t r /\
    targets st' = targets st /\
    clock st' = clock st /\ ticks st' = S (ticks st) /\
    recorded scrape t r /\
    checkTimestamp r = toISOString (clock st (ticks st)).
Proof.
  unfold recorded.
  destruct (scrape (pageUrl t)) as [e|page] eqn:S.
  - exists (errorResult t e (clock st (ticks st))).
    unfold monitorTarget, tryCatch, bind. rewrite (check_throws _ _ _ _ S).
    eexists. split; [reflexivity|]. unfold failed, errorResult, Spec.dispatch. fields.
    rewrite app_nil_r. repeat split.
  - destruct (check_returns _ _ st _ S) as (r & Hr & H1 & H2 & H3 & H4 & Hc).
    exists r. unfold monitorTarget, tryCatch, bind. rewrite Hr.
    unfold pushResult.
    destruct (notify_run t r (pushed r (tick st))) as (st' & Hn & Ho & Hrs & Hts & Hcl & Htk).
    rewrite Hn. exists st'. split; [reflexivity|].
    rewrite Ho, Hrs, Hts, Hcl, Htk. fields. repeat split; try assumption; apply Hc.
Qed.

Lemma forEach_records scrape ts : forall st,
  exists rs st',
    forEach ts (monitorTarget scrape) st = (inr tt, st') /\
    results st' = results st ++ rs /\
    Forall2 (recorded scrape) ts rs /\
    targets st' = targets st /\
    clock st' = clock st /\ ticks st' = ticks st + List.length ts.
Proof.
  induction ts as [|t ts IH]; intros st.
  - exists [], st. cbn. rewrite app_nil_r, Nat.add_0_r. repeat split. constructor.
  - destruct (monitorTarget_records scrape t st)
      as (r & st1 & Hm & Hr & _ & Ht & Hc & Hk & Hrec & _).
    destruct (IH st1) as (rs & st' & Hf & Hrs & Hall & Hts & Hcl & Htk).
    exists (r :: rs), st'. cbn [forEach]. unfold bind. rewrite Hm, Hf.
    rewrite Hrs, Hr, Hts, Ht, Hcl, Hc, Htk, Hk, <- app_assoc. cbn.
    repeat split; [constructor; assumption | lia].
Qed.

(** The whole pass returns a response, whatever the targets and
    whatever scraping does. *)
Lemma run_records scrape ts st :
  exists rs st',
    runMonitoringOver scrape ts st
    = (inr {| status := 200;
              body := JObj [("success", JBool true);
                            ("message", JStr "Daily monitoring completed");
                            ("results", JArr (map resultJSON rs));
                            ("summary", summary rs);
                            ("timestamp",
                              JStr (toISOString (clock st (S (ticks st + List.length ts)))))] |},
       st') /\
    results st' = rs /\ targets st' = ts /\ Forall2 (recorded scrape) ts rs.
Proof.
  unfold runMonitoringOver, bind, declareArrays.
  destruct (forEach_records scrape ts (declared ts st))
    as (rs & st1 & Hf & Hrs & Hall & Hts & Hcl & Htk).
  rewrite Hf. cbn in Hrs, Hts, Hcl, Htk.
  exists rs. eexists. unfold scheduleNextRun, bind, dateNow, getResults, ret. cbn.
  rewrite Hrs, Hcl, Htk. split; [reflexivity|]. cbn. auto.
Qed.

End RunFacts.

Module ChangeDetection.
Import Model Effects Json JsString JsDate Monitor Outcome RunFacts HashFacts.

(** C1, as stated, fails: a target that was never checked (empty
    stored hash) is reported as changed on its first pass, where the
    first-run rule of the specification says unchanged. *)
Lemma first_check_reports_change :
  lastContentHash Samples.neverChecked = EmptyString /\
  exists r st',
    checkWebsiteChanges Samples.neverChecked Samples.start = (inr r, st') /\
    contentChanged r = true /\
    Spec.detect (lastContentHash Samples.neverChecked) (newContentHash r) = false.
Proof.
  split; [reflexivity|].
  eexists. eexists. split; [vm_compute; reflexivity|]. split; reflexivity.
Qed.

(** C1, amended: whenever the page is scraped, the check returns a
    result whose [contentChanged] is the inequality of the new hash
    and the stored one, for every stored hash; an empty stored hash
    therefore always yields [contentChanged = true]. *)
Theorem contentChanged_is_hash_inequality scrape (t : MonitoringTarget) st page :
  scrape (pageUrl t) = inr page ->
  exists r,
    fst (checkWebsiteChangesWith scrape t st) = inr r /\
    newContentHash r = generateContentHash (metadata page) (markdown page) /\
    contentChanged r = negb (String.eqb (lastContentHash t) (newContentHash r)) /\
    (lastContentHash t = EmptyString -> contentChanged r = true).
Proof.
  intros S.
  destruct (check_returns scrape t st page S) as (r & Hr & _ & _ & _ & _ & Hc).
  destruct Hc as (Hh & Hch & _).
  exists r. rewrite Hr. split; [reflexivity|]. split; [exact Hh|].
  rewrite String.eqb_sym. split; [exact Hch|].
  intros He. rewrite Hch, Hh, He, generateContentHash_not_empty. reflexivity.
Qed.

Lemma contentChanged_is_hash_inequality_witness :
  exists r,
    fst (checkWebsiteChangesWith mockScrape Samples.neverChecked Samples.start) = inr r /\
    newContentHash r
    = generateContentHash
        {| title := "Sample Page Title"; description := "Sample page description" |}
        "Sample page content for monitoring demonstration" /\
    contentChanged r
    = negb (String.eqb (lastContentHash Samples.neverChecked) (newContentHash r)) /\
    (lastContentHash Samples.neverChecked = EmptyString -> contentChanged r = true).
Proof.
  apply (contentChanged_is_hash_inequality mockScrape Samples.neverChecked Samples.start
           {| metadata := {| title := "Sample Page Title";
                             description := "Sample page description" |};
              markdown := "Sample page content for monitoring demonstration" |}).
  reflexivity.
Defined.

End ChangeDetection.

Module Matching.
Import Model Effects Json JsString JsDate Monitor Outcome RunFacts HashFacts.

(** C2, as stated, fails: the matcher also runs on the recommendation
    that is already applied and reports its id, and the pending one
    that matches is still not applied after the pass. *)
Lemma applied_recommendation_not_skipped :
  exists resp st',
    runMonitoringOver mockScrape [Samples.twoSuggestions] Samples.start = (inr resp, st') /\
    map implementedRecommendations (results st') = [["rec_applied"; "rec_pending"]] /\
    map rec_id (Spec.pendingMatches "Sample page content for monitoring demonstration"
                  (recommendations Samples.twoSuggestions)) = ["rec_pending"] /\
    map (fun t => map applied (recommendations t)) (targets st') = [[true; false]] /\
    map applied (Spec.markApplied "Sample page content for monitoring demonstration"
                   (recommendations Samples.twoSuggestions)) = [true; true].
Proof.
  eexists. eexists. split; [vm_compute; reflexivity|].
  repeat split; vm_compute; reflexivity.
Qed.

(** C2, amended: on a pass where the content changed, the matcher is
    evaluated on every recommendation of the target, applied or not;
    the ids of those that match are accumulated in order, and the
    pass leaves the targets, their [applied] flags included, as they
    were. *)
Theorem matcher_runs_on_every_recommendation scrape (t : MonitoringTarget) st page :
  scrape (pageUrl t) = inr page ->
  String.eqb (generateContentHash (metadata page) (markdown page)) (lastContentHash t)
  = false ->
  exists r st',
    monitorTarget scrape t st = (inr tt, st') /\
    results st' = results st ++ [r] /\
    contentChanged r = true /\
    implementedRecommendations r
    = map rec_id (filter (isRecommendationImplemented (markdown page)) (recommendations t)) /\
    recommendationsImplemented r
    = existsb (isRecommendationImplemented (markdown page)) (recommendations t) /\
    targets st' = targets st.
Proof.
  intros S Hne.
  destruct (monitorTarget_records scrape t st)
    as (r & st' & Hm & Hr & _ & Ht & _ & _ & Hrec & _).
  destruct Hrec as (_ & _ & _ & Hrec). rewrite S in Hrec.
  destruct Hrec as (Hh & Hch & Hi & Hri & _).
  rewrite Hh, Hne in Hch. cbn in Hch. rewrite Hch in Hi, Hri.
  exists r, st'. repeat split; assumption.
Qed.

Lemma matcher_runs_on_every_recommendation_witness :
  exists r st',
    monitorTarget mockScrape Samples.twoSuggestions Samples.start = (inr tt, st') /\
    results st' = results Samples.start ++ [r] /\
    contentChanged r = true /\
    implementedRecommendations r
    = map rec_id (filter (isRecommendationImplemented
                            "Sample page content for monitoring demonstration")
                    (recommendations Samples.twoSuggestions)) /\
    recommendationsImplemented r
    = existsb (isRecommendationImplemented
                 "Sample page content for monitoring demonstration")
        (recommendations Samples.twoSuggestions) /\
    targets st' = targets Samples.start.
Proof.
  apply (matcher_runs_on_every_recommendation mockScrape Samples.twoSuggestions Samples.start
           {| metadata := {| title := "Sample Page Title";
                             description := "Sample page description" |};
              markdown := "Sample page content for monitoring demonstration" |}).
  - reflexivity.
  - vm_compute. reflexivity.
Defined.

(** When the hash is the stored one, no recommendation is evaluated
    and nothing is reported. *)
Lemma matcher_skipped_when_unchanged scrape (t : MonitoringTarget) st page :
  scrape (pageUrl t) = inr page ->
  String.eqb (generateContentHash (metadata page) (markdown page)) (lastContentHash t)
  = true ->
  exists r,
    fst (checkWebsiteChangesWith scrape t st) = inr r /\
    contentChanged r = false /\
    implementedRecommendations r = [] /\
    recommendationsImplemented r = false /\
    changesDetected r = [].
Proof.
  intros S He.
  destruct (check_returns scrape t st page S) as (r & Hr & _ & _ & _ & _ & Hc).
  destruct Hc as (Hh & Hch & Hi & Hri & Hd).
  rewrite Hh, He in Hch. cbn in Hch. rewrite Hch in Hi, Hri, Hd.
  exists r. rewrite Hr. repeat split; assumption.
Qed.

(** C3: a result returned by a check has [recommendationsImplemented]
    only together with [contentChanged]. *)
Theorem implemented_implies_changed scrape (t : MonitoringTarget) st r :
  fst (checkWebsiteChangesWith scrape t st) = inr r ->
  recommendationsImplemented r = true ->
  contentChanged r = true.
Proof.
  intros H Hi.
  destruct (checkWebsiteChangesWith scrape t st) as [o st'] eqn:E. cbn in H. subst o.
  destruct (check_cases _ _ _ _ _ E) as (page & _ & Hc & _).
  destruct Hc as (_ & _ & _ & Hri & _).
  rewrite Hri in Hi. apply andb_prop in Hi. apply Hi.
Qed.

Lemma implemented_implies_changed_witness :
  contentChanged
    {| targetId := "about";
       res_websiteUrl := "https://example.com";
       res_pageUrl := "https://example.com/about";
       contentChanged := true;
       recommendationsImplemented := true;
       newContentHash := "57f4e6d6faf517e11fdad5c556e08399c7697358dba4fe1ac5c87a25e6a7f86d";
       changesDetected := ["Content hash changed"; "Title tag modified";
                           "Meta description modified"];
       implementedRecommendations := ["rec_applied"; "rec_pending"];
       checkTimestamp := "2023-11-14T22:13:20.000Z" |} = true.
Proof.
  apply (implemented_implies_changed mockScrape Samples.twoSuggestions Samples.start).
  - vm_compute. reflexivity.
  - reflexivity.
Defined.

(** The same invariant for every result of a pass, the results of
    failed checks included. *)
Lemma implemented_implies_changed_in_pass scrape ts st :
  Forall (fun r => recommendationsImplemented r = true -> contentChanged r = true)
         (results (snd (runMonitoringOver scrape ts st))).
Proof.
  destruct (run_records scrape ts st) as (rs & st' & Hrun & Hrs & _ & Hall).
  rewrite Hrun. cbn [snd]. rewrite Hrs. clear Hrun Hrs.
  induction Hall as [|t r ts rs Hrec _ IH]; constructor; [|exact IH].
  destruct Hrec as (_ & _ & _ & Hrec).
  destruct (scrape (pageUrl t)).
  - destruct Hrec as (_ & Hf & _). rewrite Hf. discriminate.
  - destruct Hrec as (_ & _ & _ & Hri & _). rewrite Hri.
    intros Hi. apply andb_prop in Hi. apply Hi.
Qed.

End Matching.

Module Pass.
Import Model Effects Json JsString JsDate Monitor Outcome RunFacts HashFacts.

Lemma dispatch_counts t r :
  countType "recommendation_implemented" (Spec.dispatch t r)
  = (if recommendationsImplemented r then 1 else 0) /\
  countType "content_change_alert" (Spec.dispatch t r)
  = (if contentChanged r && negb (recommendationsImplemented r) then 1 else 0) /\
  List.length (Spec.dispatch t r) <= 1.
Proof.
  unfold Spec.dispatch.
  destruct (recommendationsImplemented r), (contentChanged r); cbn; repeat split; lia.
Qed.

(** C4: for any result, and for the result of every target of a
    pass, what is sent is the implementation notification alone when
    [recommendationsImplemented] holds, the change alert alone when
    [contentChanged] holds without it, and nothing otherwise; never
    both. *)
Theorem notifications_exclusive :
  (forall t r st,
      exists st',
        notify t r st = (inr tt, st') /\
        outbox st' = outbox st ++
          (if recommendationsImplemented r then [implementationNotification t r]
           else if contentChanged r then [contentChangeAlert t r] else [])) /\
  (forall scrape t st,
      exists r st' sent,
        monitorTarget scrape t st = (inr tt, st') /\
        results st' = results st ++ [r] /\
        outbox st' = outbox st ++ sent /\
        sent = (if recommendationsImplemented r then [implementationNotification t r]
                else if contentChanged r then [contentChangeAlert t r] else []) /\
        countType "recommendation_implemented" sent
        = (if recommendationsImplemented r then 1 else 0) /\
        countType "content_change_alert" sent
        = (if contentChanged r && negb (recommendationsImplemented r) then 1 else 0) /\
        List.length sent <= 1).
Proof.
  split.
  - intros t r st. destruct (notify_run t r st) as (st' & Hn & Ho & _).
    exists st'. split; [exact Hn | exact Ho].
  - intros scrape t st.
    destruct (monitorTarget_records scrape t st) as (r & st' & Hm & Hr & Ho & _).
    exists r, st', (Spec.dispatch t r).
    destruct (dispatch_counts t r) as (H1 & H2 & H3).
    repeat split; assumption.
Qed.

(** C7, as stated, fails: with three targets of which the second
    cannot be scraped, the summary counts the three targets and has no
    [errors] entry. *)
Lemma summary_has_no_errors_count :
  exists resp st',
    runMonitoringOver Samples.scrapeButBroken Samples.threeTargets Samples.start
    = (inr resp, st') /\
    map targetId (results st') = ["first"; "broken"; "third"] /\
    map changesDetected (results st')
    = [["Content hash changed"; "Title tag modified"; "Meta description modified"];
       ["Error: fetch failed"];
       ["Content hash changed"; "Title tag modified"; "Meta description modified"]] /\
    getField (body resp) "summary"
    = Some (JObj [("totalChecked", JInt 3); ("contentChanges", JInt 2);
                  ("recommendationsImplemented", JInt 0)]) /\
    getField (JObj [("totalChecked", JInt 3); ("contentChanges", JInt 2);
                    ("recommendationsImplemented", JInt 0)]) "errors" = None.
Proof.
  eexists. eexists. split; [vm_compute; reflexivity|].
  repeat split; vm_compute; reflexivity.
Qed.

(** C7, amended: whatever scraping does for each target, the pass
    returns a response; it records one result per target, in order,
    the result of a failed check for the targets whose check threw;
    and its summary has exactly the entries [totalChecked] (all
    targets, failed ones included), [contentChanges] and
    [recommendationsImplemented]. *)
Theorem pass_continues_after_failure scrape ts st :
  exists resp st' rs,
    runMonitoringOver scrape ts st = (inr resp, st') /\
    status resp = 200 /\
    results st' = rs /\
    map targetId rs = map id ts /\
    Forall2 (recorded scrape) ts rs /\
    getField (body resp) "results" = Some (JArr (map resultJSON rs)) /\
    getField (body resp) "summary"
    = Some (JObj [("totalChecked", JInt (List.length ts));
                  ("contentChanges", JInt (List.length (filter contentChanged rs)));
                  ("recommendationsImplemented",
                    JInt (List.length (filter recommendationsImplemented rs)))]) /\
    (forall s, getField (body resp) "summary" = Some s ->
               keys s = ["totalChecked"; "contentChanges"; "recommendationsImplemented"]
               /\ getField s "errors" = None).
Proof.
  destruct (run_records scrape ts st) as (rs & st' & Hrun & Hrs & _ & Hall).
  eexists. exists st', rs. split; [exact Hrun|].
  assert (Hids : map targetId rs = map id ts).
  { clear Hrun Hrs. induction Hall as [|t r ts rs Hrec _ IH]; [reflexivity|].
    cbn. rewrite IH. destruct Hrec as (-> & _). reflexivity. }
  repeat split; try assumption.
  - cbn. unfold summary. rewrite <- (length_map targetId rs), Hids, length_map. reflexivity.
  - cbn in H. inversion H; subst s. reflexivity.
  - cbn in H. inversion H; subst s. reflexivity.
Qed.

(** C8: when the check of a target throws, the pass records for it a
    result with both flags false, the stored hash as [newContentHash]
    and the error message in [changesDetected]; it sends nothing and
    leaves the targets as they were. *)
Theorem failed_check_keeps_baseline scrape (t : MonitoringTarget) st e :
  fst (checkWebsiteChangesWith scrape t st) = inl e ->
  exists r st',
    monitorTarget scrape t st = (inr tt, st') /\
    results st' = results st ++ [r] /\
    targetId r = id t /\
    contentChanged r = false /\
    recommendationsImplemented r = false /\
    newContentHash r = lastContentHash t /\
    changesDetected r = [("Error: " ++ message e)%string] /\
    implementedRecommendations r = [] /\
    targets st' = targets st /\
    outbox st' = outbox st.
Proof.
  intros H.
  assert (S : scrape (pageUrl t) = inl e).
  { destruct (scrape (pageUrl t)) as [e'|page] eqn:S.
    - rewrite (check_throws _ _ _ _ S) in H. cbn in H. congruence.
    - destruct (check_returns _ _ st _ S) as (r & Hr & _). rewrite Hr in H. discriminate. }
  destruct (monitorTarget_records scrape t st)
    as (r & st' & Hm & Hr & Ho & Ht & _ & _ & Hrec & _).
  destruct Hrec as (Hid & _ & _ & Hrec). rewrite S in Hrec.
  destruct Hrec as (Hc & Hi & Hh & Hd & Hl).
  exists r, st'. unfold Spec.dispatch in Ho. rewrite Hi, Hc, app_nil_r in Ho.
  repeat split; assumption.
Qed.

Lemma failed_check_keeps_baseline_witness :
  exists r st',
    monitorTarget Samples.scrapeButBroken (Samples.target "broken" "abc123def456" [])
      Samples.start = (inr tt, st') /\
    results st' = results Samples.start ++ [r] /\
    targetId r = "broken" /\
    contentChanged r = false /\
    recommendationsImplemented r = false /\
    newContentHash r = "abc123def456" /\
    changesDetected r = ["Error: fetch failed"] /\
    implementedRecommendations r = [] /\
    targets st' = targets Samples.start /\
    outbox st' = outbox Samples.start.
Proof.
  apply (failed_check_keeps_baseline Samples.scrapeButBroken
           (Samples.target "broken" "abc123def456" []) Samples.start
           {| message := "fetch failed" |}).
  reflexivity.
Defined.

(** The array of targets after a whole pass is the array it was
    given: no hash and no [applied] flag is written. *)
Lemma pass_leaves_targets scrape ts st :
  targets (snd (runMonitoringOver scrape ts st)) = ts.
Proof.
  destruct (run_records scrape ts st) as (rs & st' & Hrun & _ & Hts & _).
  rewrite Hrun. exact Hts.
Qed.

End Pass.

Module Threshold.
Import Model Json JsString Monitor JsStringFacts Binary64Facts.

Lemma spec_ratio matched total :
  0 < total ->
  Spec.ratioAtLeast70 matched total = (7 * total <=? 10 * matched).
Proof.
  intros Ht. unfold Spec.ratioAtLeast70, Qle_bool. cbn [Qnum Qden].
  rewrite <- (positive_nat_Z (Pos.of_nat total)), Nat2Pos.id by lia.
  destruct (Z.leb_spec (70 * Z.of_nat total) (Z.of_nat matched * 100));
    symmetry; [apply Nat.leb_le | apply Nat.leb_gt]; lia.
Qed.

Lemma filter_length_le {A} (f : A -> bool) l : List.length (filter f l) <= List.length l.
Proof. induction l as [|x l IH]; simpl; [lia | destruct (f x); simpl; lia]. Qed.

Lemma normalize_length s : String.length (normalize s) <= String.length s.
Proof.
  unfold normalize. pose proof (collapse_length (toLowerCase s)) as H.
  rewrite toLowerCase_length in H. exact H.
Qed.

(** The code's answer as a comparison of integers: the pieces of
    [split] are counted, empty ones included. *)
Lemma matcher_counts_pieces content rec :
  (Z.of_nat (String.length (recommendedContent rec)) < 2 ^ 48)%Z ->
  isRecommendationImplemented content rec
  = (7 * List.length (split " " (normalize (recommendedContent rec)))
     <=? 10 * List.length (filter (fun word => includes (normalize content) word)
                                  (split " " (normalize (recommendedContent rec))))).
Proof.
  intros Hb. unfold isRecommendationImplemented. cbv zeta.
  pose proof (split_length " " (normalize (recommendedContent rec))) as Hl.
  pose proof (normalize_length (recommendedContent rec)) as Hn.
  pose proof (split_nonempty " " (normalize (recommendedContent rec))) as Hne.
  apply quotient_atLeast_0_7.
  - apply filter_length_le.
  - destruct (split " " (normalize (recommendedContent rec))); [contradiction | simpl; lia].
  - change (2 ^ 49)%Z with (2 * 2 ^ 48)%Z. lia.
Qed.

Lemma tokens_of_trimmed text :
  isEmpty text = false -> trimmed text = true ->
  Spec.tokens text = split " " (normalize text).
Proof.
  intros He Ht. unfold Spec.tokens. apply filter_all.
  unfold normalize. apply split_collapse_trimmed.
  - rewrite toLowerCase_empty. exact He.
  - unfold trimmed. rewrite toLowerCase_starts, toLowerCase_ends. exact Ht.
Qed.

Lemma filter_none {A} (f : A -> bool) l :
  filter (fun x => negb (f x)) l = [] -> forallb f l = true.
Proof.
  induction l as [|x l IH]; [reflexivity|].
  simpl. destruct (f x); simpl; [exact IH | discriminate].
Qed.

Lemma no_token_normalize text :
  Spec.tokens text = [] ->
  normalize text = EmptyString \/ normalize text = " ".
Proof.
  intros H. unfold Spec.tokens in H. apply filter_none in H.
  unfold normalize in *. apply split_collapse_all_empty in H.
  rewrite (collapse_allWhiteSpace _ H).
  destruct (isEmpty (toLowerCase text)); auto.
Qed.

Lemma isEmpty_true s : isEmpty s = true -> s = EmptyString.
Proof. destruct s; [reflexivity | discriminate]. Qed.

(** C5, as stated, fails: a suggested text that begins and ends with
    white space has two empty pieces, which the code counts as
    matched tokens; with two of its three tokens in the page the code
    answers true at 4/5 where the ratio of tokens is 2/3. *)
Lemma padded_suggestion_counts_empty_pieces :
  split " " (normalize " a b c ") = [EmptyString; "a"; "b"; "c"; EmptyString] /\
  Spec.tokens " a b c " = ["a"; "b"; "c"] /\
  isRecommendationImplemented "a b" (Samples.suggestion "rec_001" " a b c " false) = true /\
  Spec.isImplemented "a b" (Samples.suggestion "rec_001" " a b c " false) = false.
Proof. repeat split; vm_compute; reflexivity. Qed.

(** C5, amended: for a suggested text that neither begins nor ends
    with white space (and is shorter than 2^48 characters), the code
    answers as the specification's matcher does: true exactly when
    the tokens found in the normalized page are at least 70% of the
    tokens, that is when 7 * total <= 10 * matched. *)
Theorem matcher_agrees_on_trimmed_text content rec :
  trimmed (recommendedContent rec) = true ->
  (Z.of_nat (String.length (recommendedContent rec)) < 2 ^ 48)%Z ->
  isRecommendationImplemented content rec = Spec.isImplemented content rec /\
  (Spec.tokens (recommendedContent rec) <> [] ->
   isRecommendationImplemented content rec
   = (7 * List.length (Spec.tokens (recommendedContent rec))
      <=? 10 * List.length (filter (fun t => includes (normalize content) t)
                                   (Spec.tokens (recommendedContent rec))))).
Proof.
  intros Ht Hb.
  destruct (isEmpty (recommendedContent rec)) eqn:He.
  - apply isEmpty_true in He.
    unfold isRecommendationImplemented, Spec.isImplemented. rewrite He.
    change (normalize EmptyString) with EmptyString.
    change (Spec.tokens EmptyString) with (@nil string).
    cbn [split filter]. rewrite includes_empty.
    split; [vm_compute; reflexivity | intros H; contradiction].
  - pose proof (tokens_of_trimmed _ He Ht) as Htok.
    pose proof (split_nonempty " " (normalize (recommendedContent rec))) as Hne.
    rewrite (matcher_counts_pieces content rec Hb).
    unfold Spec.isImplemented. cbv zeta. rewrite Htok.
    destruct (split " " (normalize (recommendedContent rec))) as [|w ws] eqn:Es;
      [contradiction|].
    split; [|reflexivity].
    rewrite spec_ratio by (simpl; lia). reflexivity.
Qed.

Lemma matcher_agrees_on_trimmed_text_witness :
  isRecommendationImplemented "learn about our mission and values and team"
    (Samples.suggestion "rec_001" "Learn about our mission and values" false)
  = Spec.isImplemented "learn about our mission and values and team"
      (Samples.suggestion "rec_001" "Learn about our mission and values" false) /\
  (Spec.tokens "Learn about our mission and values" <> [] ->
   isRecommendationImplemented "learn about our mission and values and team"
     (Samples.suggestion "rec_001" "Learn about our mission and values" false)
   = (7 * List.length (Spec.tokens "Learn about our mission and values")
      <=? 10 * List.length
                 (filter (fun t => includes
                                     (normalize "learn about our mission and values and team") t)
                         (Spec.tokens "Learn about our mission and values")))).
Proof.
  apply (matcher_agrees_on_trimmed_text "learn about our mission and values and team"
           (Samples.suggestion "rec_001" "Learn about our mission and values" false)).
  - reflexivity.
  - reflexivity.
Defined.

(** The boundary of the threshold: 7 of 10 and 70 of 100 pass, 69 of
    100 and 6 of 10 do not. *)
Lemma threshold_boundary :
  Binary64.geb (Binary64.div (Binary64.ofNat 7) (Binary64.ofNat 10)) Binary64.lit_0_7 = true /\
  Binary64.geb (Binary64.div (Binary64.ofNat 70) (Binary64.ofNat 100)) Binary64.lit_0_7 = true /\
  Binary64.geb (Binary64.div (Binary64.ofNat 69) (Binary64.ofNat 100)) Binary64.lit_0_7 = false /\
  Binary64.geb (Binary64.div (Binary64.ofNat 6) (Binary64.ofNat 10)) Binary64.lit_0_7 = false.
Proof. repeat split; vm_compute; reflexivity. Qed.

Lemma threshold_boundary_on_texts :
  isRecommendationImplemented "one two three four five six seven"
    (Samples.suggestion "rec_001" "one two three four five six seven eight nine ten" false)
  = true /\
  isRecommendationImplemented "one two three four five six"
    (Samples.suggestion "rec_001" "one two three four five six seven eight nine ten" false)
  = false.
Proof. split; vm_compute; reflexivity. Qed.

(** C6: a suggested text without any token, the empty text in
    particular, is reported as implemented whatever the page. *)
Theorem empty_suggestion_is_implemented content rec :
  Spec.tokens (recommendedContent rec) = [] ->
  isRecommendationImplemented content rec = true.
Proof.
  intros H. unfold isRecommendationImplemented. cbv zeta.
  destruct (no_token_normalize _ H) as [-> | ->].
  - cbn [split filter]. rewrite includes_empty. vm_compute. reflexivity.
  - cbn [split filter]. change (Ascii.eqb " " " ") with true.
    cbn [filter]. rewrite includes_empty. vm_compute. reflexivity.
Qed.

Lemma empty_suggestion_is_implemented_witness :
  isRecommendationImplemented "Sample page content for monitoring demonstration"
    (Samples.suggestion "rec_001" EmptyString false) = true.
Proof.
  apply (empty_suggestion_is_implemented "Sample page content for monitoring demonstration"
           (Samples.suggestion "rec_001" EmptyString false)).
  reflexivity.
Defined.

End Threshold.

Module Scheduling.
Import Model Effects Json JsString JsDate Schedule.

(** The object created for the page at position [i], when the clock
    has been read [k] times before the loop. *)
Lemma newTarget_run w frequency pageUrl index st :
  newTarget (Some w) frequency pageUrl index st
  = (inr (JObj [("id", JStr ("target_" ++ toDecimal (clock st (ticks st)) ++ "_"
                             ++ toDecimal (Z.of_nat index)));
                ("websiteUrl", w);
                ("pageUrl", pageUrl);
                ("frequency", frequency);
                ("createdAt", JStr (toISOString (clock st (ticks st + 1))));
                ("nextCheck", JStr (toISOString (clock st (ticks st + 2)
                                                 + getFrequencyMs frequency)))]),
     tick (tick (tick st))).
Proof.
  unfold newTarget, bind, dateNow, ret. cbn.
  rewrite !Nat.add_succ_r, Nat.add_0_r. reflexivity.
Qed.

Lemma mapIndexed_newTarget w frequency items : forall index st,
  exists ts st',
    mapIndexed (newTarget (Some w) frequency) items index st = (inr ts, st') /\
    clock st' = clock st /\
    ticks st' = ticks st + 3 * List.length items /\
    List.length ts = List.length items /\
    forall i pageUrl,
      nth_error items i = Some pageUrl ->
      nth_error ts i
      = Some (JObj [("id", JStr ("target_" ++ toDecimal (clock st (ticks st + 3 * i)) ++ "_"
                                 ++ toDecimal (Z.of_nat (index + i))));
                    ("websiteUrl", w);
                    ("pageUrl", pageUrl);
                    ("frequency", frequency);
                    ("createdAt", JStr (toISOString (clock st (ticks st + 3 * i + 1))));
                    ("nextCheck", JStr (toISOString (clock st (ticks st + 3 * i + 2)
                                                     + getFrequencyMs frequency)))]).
Proof.
  induction items as [|p items IH]; intros index st.
  - exists [], st. cbn. repeat split; try lia.
    intros [|i] q H; discriminate.
  - cbn [mapIndexed]. unfold bind at 1. rewrite newTarget_run.
    destruct (IH (S index) (tick (tick (tick st)))) as (ts & st' & Hm & Hc & Hk & Hl & Hn).
    unfold bind at 1. rewrite Hm. unfold ret.
    eexists. exists st'. split; [reflexivity|].
    cbn [clock ticks tick] in Hc, Hk, Hn.
    repeat split.
    + exact Hc.
    + rewrite Hk. cbn [List.length]. lia.
    + cbn [List.length]. rewrite Hl. reflexivity.
    + intros [|i] q Hq.
      * cbn in Hq. inversion Hq; subst q. cbn [nth_error].
        rewrite !Nat.mul_0_r, !Nat.add_0_r. reflexivity.
      * cbn [nth_error] in *. rewrite (Hn i q Hq).
        replace (S (S (S (ticks st))) + 3 * i) with (ticks st + 3 * S i) by lia.
        replace (S index + i) with (index + S i) by lia.
        reflexivity.
Qed.

Lemma destructure_run body st :
  isNull body = false ->
  destructure body st
  = (inr (getField body "websiteUrl", getField body "pageUrls",
          match getField body "frequency" with
          | Some frequency => frequency
          | None => JStr "daily"
          end), st).
Proof. intros H. destruct body; try reflexivity. discriminate. Qed.

(** A complete request. *)
Lemma schedule_valid req requestBody w items st :
  json req = inr requestBody -> isNull requestBody = false ->
  getField requestBody "websiteUrl" = Some w -> truthy (Some w) = true ->
  getField requestBody "pageUrls" = Some (JArr items) ->
  exists resp st' ts,
    scheduleMonitoring req st = (inr resp, st') /\
    status resp = 200 /\
    getField (body resp) "targets" = Some (JArr ts) /\
    List.length ts = List.length items /\
    forall i pageUrl,
      nth_error items i = Some pageUrl ->
      nth_error ts i
      = Some (JObj [("id", JStr ("target_" ++ toDecimal (clock st (ticks st + 3 * i)) ++ "_"
                                 ++ toDecimal (Z.of_nat i)));
                    ("websiteUrl", w);
                    ("pageUrl", pageUrl);
                    ("frequency", match getField requestBody "frequency" with
                                  | Some frequency => frequency
                                  | None => JStr "daily"
                                  end);
                    ("createdAt", JStr (toISOString (clock st (ticks st + 3 * i + 1))));
                    ("nextCheck",
                      JStr (toISOString
                              (clock st (ticks st + 3 * i + 2)
                               + getFrequencyMs
                                   (match getField requestBody "frequency" with
                                    | Some frequency => frequency
                                    | None => JStr "daily"
                                    end))))]).
Proof.
  intros Hj Hn Hw Ht Hp.
  unfold scheduleMonitoring, bind at 1, await. rewrite Hj.
  unfold bind at 1. rewrite (destructure_run _ _ Hn), Hw, Hp, Ht.
  cbn [truthy isArray negb orb].
  set (f := match getField requestBody "frequency" with
            | Some frequency => frequency
            | None => JStr "daily"
            end).
  destruct (mapIndexed_newTarget w f items 0 st) as (ts & st' & Hm & _ & _ & Hl & Hnth).
  unfold bind. rewrite Hm. unfold ret.
  eexists. exists st', ts. split; [reflexivity|].
  cbn [status body]. repeat split; [exact Hl|].
  intros i p Hi. exact (Hnth i p Hi).
Qed.

(** C9, as stated, fails: the objects created by [/schedule] carry
    neither a content hash nor a time of last check. *)
Lemma scheduled_target_has_no_hash :
  exists resp st' first rest,
    scheduleMonitoring Samples.scheduleRequest Samples.start = (inr resp, st') /\
    getField (body resp) "targets" = Some (JArr (first :: rest)) /\
    keys first = ["id"; "websiteUrl"; "pageUrl"; "frequency"; "createdAt"; "nextCheck"] /\
    getField first "lastContentHash" = None /\
    getField first "lastCheckedAt" = None /\
    getField first "lastChecked" = None.
Proof.
  eexists. eexists. eexists. eexists.
  split; [vm_compute; reflexivity|].
  split; [vm_compute; reflexivity|].
  repeat split.
Qed.

(** C9, amended: for a request with a [websiteUrl] and an array of
    page URLs, [/schedule] answers with one object per page URL, in
    order; each has exactly the entries [id], [websiteUrl],
    [pageUrl], [frequency], [createdAt] (the time of creation) and
    [nextCheck] (the clock plus the interval of the frequency); the
    interval is 1 day for daily, 7 for weekly and 30 for monthly. *)
Theorem schedule_creates_one_target_per_page req requestBody w items st :
  json req = inr requestBody -> isNull requestBody = false ->
  getField requestBody "websiteUrl" = Some w -> truthy (Some w) = true ->
  getField requestBody "pageUrls" = Some (JArr items) ->
  (exists resp st' ts,
    scheduleMonitoring req st = (inr resp, st') /\
    status resp = 200 /\
    getField (body resp) "targets" = Some (JArr ts) /\
    List.length ts = List.length items /\
    forall i pageUrl,
      nth_error items i = Some pageUrl ->
      nth_error ts i
      = Some (JObj [("id", JStr ("target_" ++ toDecimal (clock st (ticks st + 3 * i)) ++ "_"
                                 ++ toDecimal (Z.of_nat i)));
                    ("websiteUrl", w);
                    ("pageUrl", pageUrl);
                    ("frequency", match getField requestBody "frequency" with
                                  | Some frequency => frequency
                                  | None => JStr "daily"
                                  end);
                    ("createdAt", JStr (toISOString (clock st (ticks st + 3 * i + 1))));
                    ("nextCheck",
                      JStr (toISOString
                              (clock st (ticks st + 3 * i + 2)
                               + getFrequencyMs
                                   (match getField requestBody "frequency" with
                                    | Some frequency => frequency
                                    | None => JStr "daily"
                                    end))))])) /\
  getFrequencyMs (JStr "daily") = (1 * msPerDay)%Z /\
  getFrequencyMs (JStr "weekly") = (7 * msPerDay)%Z /\
  getFrequencyMs (JStr "monthly") = (30 * msPerDay)%Z.
Proof.
  intros Hj Hn Hw Ht Hp.
  split; [exact (schedule_valid req requestBody w items st Hj Hn Hw Ht Hp)|].
  repeat split.
Qed.

Lemma schedule_creates_one_target_per_page_witness :
  exists resp st' ts,
    scheduleMonitoring Samples.scheduleRequest Samples.start = (inr resp, st') /\
    status resp = 200 /\
    getField (body resp) "targets" = Some (JArr ts) /\
    List.length ts = 2.
Proof.
  destruct (schedule_creates_one_target_per_page Samples.scheduleRequest
              (JObj [("websiteUrl", JStr "https://example.com");
                     ("pageUrls", JArr [JStr "https://example.com/a";
                                        JStr "https://example.com/b"]);
                     ("frequency", JStr "weekly")])
              (JStr "https://example.com")
              [JStr "https://example.com/a"; JStr "https://example.com/b"]
              Samples.start eq_refl eq_refl eq_refl eq_refl eq_refl)
    as [(resp & st' & ts & H1 & H2 & H3 & H4 & _) _].
  exists resp, st', ts. auto.
Defined.

Lemma getFrequencyMs_default frequency :
  frequency <> JStr "weekly" -> frequency <> JStr "monthly" ->
  getFrequencyMs frequency = 86400000%Z.
Proof.
  intros Hw Hm. destruct frequency as [| | |s| |]; try reflexivity.
  unfold getFrequencyMs.
  destruct (String.eqb_spec s "daily"); [reflexivity|].
  destruct (String.eqb_spec s "weekly"); [subst; contradiction|].
  destruct (String.eqb_spec s "monthly"); [subst; contradiction|].
  reflexivity.
Qed.

(** C10, as stated, fails: a request whose body is [null] has no
    [websiteUrl] and no [pageUrls], and a request whose body is not
    JSON has none either; for both [scheduleMonitoring] throws, at the
    destructuring and at [req.json()], and returns no response with
    status 400. *)
Lemma unreadable_body_is_not_answered_400 :
  truthy (getField JNull "websiteUrl") = false /\
  truthy (getField JNull "pageUrls") = false /\
  isArray (getField JNull "pageUrls") = false /\
  scheduleMonitoring {| json := inr JNull |} Samples.start
  = (inl {| message := "Cannot destructure property 'websiteUrl' of 'body' as it is null." |},
     Samples.start) /\
  fst (scheduleMonitoring {| json := inr JNull |} Samples.start) <> inr badRequest /\
  scheduleMonitoring {| json := inl {| message := "Unexpected end of JSON input" |} |}
    Samples.start
  = (inl {| message := "Unexpected end of JSON input" |}, Samples.start).
Proof.
  repeat split; try reflexivity.
  cbn. discriminate.
Qed.

(** C10, amended: a request whose body is JSON other than [null], and
    which is without a [websiteUrl], without [pageUrls], or whose
    [pageUrls] is not an array, is answered with status 400 and
    nothing is created; and every frequency other than weekly and
    monthly, an absent one included, gives the interval of one day to
    the next check. *)
Theorem schedule_rejects_incomplete_request :
  (forall req requestBody st,
      json req = inr requestBody -> isNull requestBody = false ->
      truthy (getField requestBody "websiteUrl") = false
      \/ truthy (getField requestBody "pageUrls") = false
      \/ isArray (getField requestBody "pageUrls") = false ->
      scheduleMonitoring req st = (inr badRequest, st) /\
      status badRequest = 400 /\
      getField (body badRequest) "targets" = None) /\
  (forall frequency,
      frequency <> JStr "weekly" -> frequency <> JStr "monthly" ->
      getFrequencyMs frequency = 86400000%Z) /\
  (forall req requestBody w items st,
      json req = inr requestBody -> isNull requestBody = false ->
      getField requestBody "websiteUrl" = Some w -> truthy (Some w) = true ->
      getField requestBody "pageUrls" = Some (JArr items) ->
      getField requestBody "frequency" = None
      \/ (exists frequency, getField requestBody "frequency" = Some frequency
                            /\ frequency <> JStr "weekly" /\ frequency <> JStr "monthly") ->
      exists resp st' ts,
        scheduleMonitoring req st = (inr resp, st') /\
        getField (body resp) "targets" = Some (JArr ts) /\
        forall i pageUrl,
          nth_error items i = Some pageUrl ->
          exists t,
            nth_error ts i = Some t /\
            getField t "nextCheck"
            = Some (JStr (toISOString (clock st (ticks st + 3 * i + 2) + 86400000)))).
Proof.
  split; [|split].
  - intros req requestBody st Hj Hn Hg.
    unfold scheduleMonitoring, bind at 1, await. rewrite Hj.
    unfold bind at 1. rewrite (destructure_run _ _ Hn).
    assert (G : negb (truthy (getField requestBody "websiteUrl"))
                || negb (truthy (getField requestBody "pageUrls"))
                || negb (isArray (getField requestBody "pageUrls")) = true).
    { destruct Hg as [H|[H|H]]; rewrite H; cbn; rewrite ?orb_true_r; reflexivity. }
    rewrite G. repeat split.
  - exact getFrequencyMs_default.
  - intros req requestBody w items st Hj Hn Hw Ht Hp Hf.
    destruct (schedule_valid req requestBody w items st Hj Hn Hw Ht Hp)
      as (resp & st' & ts & Hs & _ & Hts & _ & Hnth).
    exists resp, st', ts. split; [exact Hs|]. split; [exact Hts|].
    intros i p Hi. eexists. split; [exact (Hnth i p Hi)|].
    assert (E : getFrequencyMs (match getField requestBody "frequency" with
                                | Some frequency => frequency
                                | None => JStr "daily"
                                end) = 86400000%Z).
    { destruct Hf as [-> | (f & -> & Hfw & Hfm)]; [reflexivity|].
      apply getFrequencyMs_default; assumption. }
    rewrite E. reflexivity.
Qed.

Lemma schedule_rejects_incomplete_request_witness :
  scheduleMonitoring Samples.requestWithoutPages Samples.start
  = (inr badRequest, Samples.start) /\
  status badRequest = 400 /\
  getField (body badRequest) "targets" = None.
Proof.
  apply (proj1 schedule_rejects_incomplete_request Samples.requestWithoutPages
           (JObj [("websiteUrl", JStr "https://example.com")]) Samples.start).
  - reflexivity.
  - reflexivity.
  - right. left. reflexivity.
Defined.

(** A body that is [null] is not destructured: the function throws. *)
Lemma schedule_null_body_throws st :
  exists e, scheduleMonitoring {| json := inr JNull |} st = (inl e, st).
Proof. eexists. reflexivity. Qed.

End Scheduling.
